(** * dr_strange: the Ollama model viewer (src/main.py)

    A shallow embedding of the Shiny application of [src/main.py]: the two
    daemon helpers ([get_available_models], [get_model_config]), the JSON
    formatter ([format_model_config] with its [datetime_converter] hook) and
    the handler that the "Submit Model" button runs inside [server].

    Conventions of the embedding.
    - A Python [str] is a [string]; one [ascii] stands for one code point
      (U+0000..U+00FF).
    - A Python value is a [pyval]; a [dict] is an association list in
      insertion order with [str] keys (what [model_dump()] and the daemon's
      JSON produce).
    - A Python exception is an [exn]; code that may raise returns a [result].
    - The handler runs in the monad [M]: it threads the three reactive cells
      and the list of effects performed so far, and may raise.
    - The daemon is outside the program: [ollama_list] and [ollama_show] are
      section variables, and so is [float_repr] (Python's [float.__repr__]). *)

From Stdlib Require Import String Ascii List ZArith NArith Lia Bool.
From Stdlib Require Import DecimalString.
From Stdlib Require Import Floats.SpecFloat.
Import ListNotations.

Open Scope string_scope.

(** ** Python strings *)

Module PyStr.

Definition dquote : ascii := "034"%char.
Definition newline : ascii := "010"%char.
Definition backslash : ascii := "092"%char.

Definition chr (c : ascii) : string := String c EmptyString.

(** [needle in hay] on two [str] operands. *)
Fixpoint str_in (needle hay : string) : bool :=
  if prefix needle hay then true
  else match hay with
       | EmptyString => false
       | String _ hay' => str_in needle hay'
       end.

(** [s * n] *)
Fixpoint str_mul (s : string) (n : nat) : string :=
  match n with
  | O => EmptyString
  | S n' => s ++ str_mul s n'
  end.

(** ["%0<w>d" % n] for a non-negative [n]. *)
Definition zero_pad (w : nat) (n : N) : string :=
  let digits := NilZero.string_of_uint (N.to_uint n) in
  str_mul "0" (w - String.length digits) ++ digits.

Definition hex_digit (n : N) : ascii :=
  match n with
  | 0 => "0" | 1 => "1" | 2 => "2" | 3 => "3" | 4 => "4" | 5 => "5"
  | 6 => "6" | 7 => "7" | 8 => "8" | 9 => "9" | 10 => "a" | 11 => "b"
  | 12 => "c" | 13 => "d" | 14 => "e" | _ => "f"
  end%N%char.

(** ['{0:04x}'.format(n)] for [n < 0x10000]. *)
Definition hex4 (n : N) : string :=
  String (hex_digit (N.land (N.shiftr n 12) 15))
    (String (hex_digit (N.land (N.shiftr n 8) 15))
       (String (hex_digit (N.land (N.shiftr n 4) 15))
          (String (hex_digit (N.land n 15)) EmptyString))).

End PyStr.
Import PyStr.

(** ** Exceptions and results *)

Record exn : Type := Exception { exn_class : string; exn_str : string }.

Definition TypeError (msg : string) : exn := Exception "TypeError" msg.
Definition KeyError (msg : string) : exn := Exception "KeyError" msg.

Inductive result (A : Type) : Type :=
| Ok (a : A)
| Raise (e : exn).
Arguments Ok {A} a.
Arguments Raise {A} e.

Definition rbind {A B} (r : result A) (k : A -> result B) : result B :=
  match r with
  | Ok a => k a
  | Raise e => Raise e
  end.

Declare Scope result_scope.
Delimit Scope result_scope with result.
Notation "x <- r ;; k" := (rbind r (fun x => k))
  (at level 61, r at next level, right associativity) : result_scope.

(** ** Python values *)

(** [datetime.datetime]: the calendar fields and [utcoffset()] in
    microseconds ([None] for a naive value). *)
Record datetime : Type := Datetime {
  year : N; month : N; day : N;
  hour : N; minute : N; second : N; microsecond : N;
  utcoffset : option Z
}.

#[local] Unset Elimination Schemes.
Inductive pyval : Type :=
| PNone
| PBool (b : bool)
| PInt (z : Z)
| PFloat (x : spec_float)
| PStr (s : string)
| PList (l : list pyval)
| PDict (d : list (string * pyval))
| PDatetime (t : datetime)
| PObj (cls : string).     (* an instance of any other class [cls] *)
#[local] Set Elimination Schemes.

Definition pydict : Type := list (string * pyval).

(** [d.get(key)]: the value, or [None]. *)
Fixpoint dict_get (d : pydict) (key : string) : option pyval :=
  match d with
  | [] => None
  | (k, v) :: d' => if String.eqb k key then Some v else dict_get d' key
  end.

Definition dict_get_default (d : pydict) (key : string) (dflt : pyval)
  : pyval :=
  match dict_get d key with
  | Some v => v
  | None => dflt
  end.

(** The truth value of an object, as [if o:] tests it. *)
Definition truthy (o : pyval) : bool :=
  match o with
  | PNone => false
  | PBool b => b
  | PInt z => negb (Z.eqb z 0)
  | PFloat (S754_zero _) => false
  | PFloat _ => true
  | PStr s => negb (String.eqb s "")
  | PList l => match l with [] => false | _ => true end
  | PDict d => match d with [] => false | _ => true end
  | PDatetime _ => true
  | PObj _ => true
  end.

(** [o.__class__.__name__] *)
Definition class_name (o : pyval) : string :=
  match o with
  | PNone => "NoneType"
  | PBool _ => "bool"
  | PInt _ => "int"
  | PFloat _ => "float"
  | PStr _ => "str"
  | PList _ => "list"
  | PDict _ => "dict"
  | PDatetime _ => "datetime"
  | PObj cls => cls
  end.

(** ** datetime.isoformat() *)

Module Iso.

Definition hour_us : Z := 3600000000.
Definition minute_us : Z := 60000000.
Definition second_us : Z := 1000000.

(** [_format_time(hh, mm, ss, us, 'auto')] *)
Definition format_time (hh mm ss us : N) : string :=
  zero_pad 2 hh ++ ":" ++ zero_pad 2 mm ++ ":" ++ zero_pad 2 ss
  ++ (if N.eqb us 0 then "" else "." ++ zero_pad 6 us).

(** [_format_offset(off)] *)
Definition format_offset (off : option Z) : string :=
  match off with
  | None => ""
  | Some off =>
      let sign := if Z.ltb off 0 then "-" else "+" in
      let off := Z.abs off in
      let hh := Z.div off hour_us in
      let mm := Z.div (Z.modulo off hour_us) minute_us in
      let ss := Z.modulo (Z.modulo off hour_us) minute_us in
      sign ++ zero_pad 2 (Z.to_N hh) ++ ":" ++ zero_pad 2 (Z.to_N mm)
      ++ (if Z.eqb ss 0 then ""
          else ":" ++ zero_pad 2 (Z.to_N (Z.div ss second_us))
               ++ (if Z.eqb (Z.modulo ss second_us) 0 then ""
                   else "." ++ zero_pad 6 (Z.to_N (Z.modulo ss second_us))))
  end.

Definition isoformat (t : datetime) : string :=
  zero_pad 4 (year t) ++ "-" ++ zero_pad 2 (month t) ++ "-"
  ++ zero_pad 2 (day t) ++ "T"
  ++ format_time (hour t) (minute t) (second t) (microsecond t)
  ++ format_offset (utcoffset t).

End Iso.

(** ** The helpers of main.py that do not talk to the daemon *)

(** [datetime_converter(o)]: the [default=] hook handed to [json.dumps]. *)
Definition datetime_converter (o : pyval) : result string :=
  match o with
  | PDatetime t => Ok (Iso.isoformat t)
  | _ => Raise (TypeError ("Object of type " ++ class_name o
                           ++ " is not JSON serializable"))
  end.

(** ** json.dumps(obj, indent=2, default=...) *)

Module Json.

(** One character under [py_encode_basestring_ascii]. *)
Definition escape_char (c : ascii) : string :=
  let n := N_of_ascii c in
  if Ascii.eqb c backslash then "\\"
  else if Ascii.eqb c dquote then String backslash (chr dquote)
  else if N.eqb n 8 then "\b"
  else if N.eqb n 12 then "\f"
  else if N.eqb n 10 then "\n"
  else if N.eqb n 13 then "\r"
  else if N.eqb n 9 then "\t"
  else if (N.leb 32 n && N.leb n 126)%bool then chr c
  else "\u" ++ hex4 n.

Fixpoint escape (s : string) : string :=
  match s with
  | EmptyString => EmptyString
  | String c s' => escape_char c ++ escape s'
  end.

Definition encoder (s : string) : string :=
  chr dquote ++ escape s ++ chr dquote.

Definition intstr (z : Z) : string := NilZero.string_of_int (Z.to_int z).

Section Encoder.

Variable float_repr : spec_float -> string.
Variable default : pyval -> result string.

Definition floatstr (x : spec_float) : string :=
  match x with
  | S754_nan => "NaN"
  | S754_infinity false => "Infinity"
  | S754_infinity true => "-Infinity"
  | _ => float_repr x
  end.

Definition indent : string := str_mul " " 2.
Definition item_separator : string := ",".
Definition key_separator : string := ": ".

Definition newline_indent (level : nat) : string :=
  chr newline ++ str_mul indent level.

(** The loops of [_iterencode_list] and [_iterencode_dict] over the
    items, given the encoder of one value; the chunks are already
    joined.  The first item follows [newline_indent], every other one
    the separator. *)
Section Loops.

Variable encode_value : pyval -> nat -> result string.

Fixpoint iterencode_list_items (first : bool) (lst : list pyval)
         (level : nat) : result string :=
  match lst with
  | [] => Ok ""
  | value :: lst' =>
      (chunk <- encode_value value level ;;
       rest <- iterencode_list_items false lst' level ;;
       Ok ((if first then newline_indent level
            else item_separator ++ newline_indent level)
           ++ chunk ++ rest))%result
  end.

Definition iterencode_list (lst : list pyval) (level : nat)
  : result string :=
  match lst with
  | [] => Ok "[]"
  | _ =>
      (body <- iterencode_list_items true lst (S level) ;;
       Ok ("[" ++ body ++ newline_indent level ++ "]"))%result
  end.

Fixpoint iterencode_dict_items (first : bool) (dct : pydict)
         (level : nat) : result string :=
  match dct with
  | [] => Ok ""
  | (key, value) :: dct' =>
      (chunk <- encode_value value level ;;
       rest <- iterencode_dict_items false dct' level ;;
       Ok ((if first then newline_indent level
            else item_separator ++ newline_indent level)
           ++ encoder key ++ key_separator ++ chunk ++ rest))%result
  end.

Definition iterencode_dict (dct : pydict) (level : nat)
  : result string :=
  match dct with
  | [] => Ok "{}"
  | _ =>
      (body <- iterencode_dict_items true dct (S level) ;;
       Ok ("{" ++ body ++ newline_indent level ++ "}"))%result
  end.

End Loops.

(** [_iterencode].  [default] returns a [str], which the re-entered
    [_iterencode] hands to [encoder]. *)
Fixpoint iterencode (o : pyval) (level : nat) : result string :=
  match o with
  | PStr s => Ok (encoder s)
  | PNone => Ok "null"
  | PBool true => Ok "true"
  | PBool false => Ok "false"
  | PInt z => Ok (intstr z)
  | PFloat x => Ok (floatstr x)
  | PList lst => iterencode_list iterencode lst level
  | PDict dct => iterencode_dict iterencode dct level
  | _ => (s <- default o ;; Ok (encoder s))%result
  end.

Definition dumps (obj : pyval) : result string := iterencode obj 0.

End Encoder.

End Json.

(** ** The process state and the monad of effectful code *)

(** What the program does to the outside, in the order it does it. *)
Inductive effect : Type :=
| PrintLine (line : string)                       (* print(line) *)
| OllamaList                                  (* ollama.list() *)
| OllamaShow (model : string)                 (* ollama.show(model) *)
| NotificationShow (msg type : string)        (* ui.notification_show *)
| SetModelToDisplay (v : string)              (* model_to_display.set(v) *)
| SetModelConfig (v : string)                 (* model_config.set(v) *)
| SetSystemPrompt (v : pyval).                (* system_prompt.set(v) *)

(** The three [reactive.Value] cells of [server] and the effects so far. *)
Record world : Type := World {
  model_to_display : string;
  model_config : string;
  system_prompt : pyval;
  effects : list effect
}.

Definition M (A : Type) : Type := world -> result A * world.

Definition ret {A} (a : A) : M A := fun w => (Ok a, w).

Definition bind {A B} (c : M A) (k : A -> M B) : M B :=
  fun w => match c w with
           | (Ok a, w') => k a w'
           | (Raise e, w') => (Raise e, w')
           end.

Definition lift {A} (r : result A) : M A := fun w => (r, w).

(** [try: body  except Exception as e: handler(e)] *)
Definition try_except {A} (body : M A) (handler : exn -> M A) : M A :=
  fun w => match body w with
           | (Ok a, w') => (Ok a, w')
           | (Raise e, w') => handler e w'
           end.

Definition perform (e : effect) : M unit :=
  fun w => (Ok tt, World (model_to_display w) (model_config w)
                         (system_prompt w) (effects w ++ [e])).

Declare Scope py_scope.
Delimit Scope py_scope with py.
Notation "x <- c ;; k" := (bind c (fun x => k))
  (at level 61, c at next level, right associativity) : py_scope.
Notation "' pat <- c ;; k" := (bind c (fun x => match x with pat => k end))
  (at level 61, pat pattern, c at next level, right associativity) : py_scope.
Notation "c ;; k" := (bind c (fun _ => k))
  (at level 61, right associativity) : py_scope.

Definition print (line : string) : M unit := perform (PrintLine line).

Definition notification_show (msg type : string) : M unit :=
  perform (NotificationShow msg type).

Definition set_model_to_display (v : string) : M unit :=
  fun w => (Ok tt, World v (model_config w) (system_prompt w)
                         (effects w ++ [SetModelToDisplay v])).

Definition set_model_config (v : string) : M unit :=
  fun w => (Ok tt, World (model_to_display w) v (system_prompt w)
                         (effects w ++ [SetModelConfig v])).

Definition set_system_prompt (v : pyval) : M unit :=
  fun w => (Ok tt, World (model_to_display w) (model_config w) v
                         (effects w ++ [SetSystemPrompt v])).

Fixpoint mapM {A B} (f : A -> M B) (l : list A) : M (list B) :=
  match l with
  | [] => ret []
  | a :: l' => (b <- f a ;; bs <- mapM f l' ;; ret (b :: bs))%py
  end.

(** [for x in o]: the items the loop visits. *)
Definition py_iter (o : pyval) : result (list pyval) :=
  match o with
  | PList l => Ok l
  | PDict d => Ok (map (fun kv => PStr (fst kv)) d)
  | PStr s => Ok (map (fun c => PStr (chr c)) (list_ascii_of_string s))
  | _ => Raise (TypeError ("'" ++ class_name o ++ "' object is not iterable"))
  end.

(** [o[key]] for a [str] key. *)
Definition py_getitem (o : pyval) (key : string) : result pyval :=
  match o with
  | PDict d =>
      match dict_get d key with
      | Some v => Ok v
      | None => Raise (KeyError ("'" ++ key ++ "'"))
      end
  | PList _ =>
      Raise (TypeError "list indices must be integers or slices, not str")
  | PStr _ =>
      Raise (TypeError "string indices must be integers, not 'str'")
  | _ =>
      Raise (TypeError ("'" ++ class_name o ++ "' object is not subscriptable"))
  end.

(** ** main.py *)

Section Main.

(** [float.__repr__] *)
Variable float_repr : spec_float -> string.

(** What the daemon answers: [ollama.list()] as a mapping, and
    [ollama.show(name).model_dump()].  Either call may raise. *)
Variable ollama_list : result pydict.
Variable ollama_show : string -> result pydict.

Definition call_ollama_list : M pydict :=
  (perform OllamaList ;; lift ollama_list)%py.

Definition call_ollama_show (model_name : string) : M pydict :=
  (perform (OllamaShow model_name) ;; lift (ollama_show model_name))%py.

Definition sentinel : string :=
  "Error: Could not connect to Ollama. Is it running?".

(** The [try] block of [get_available_models]. *)
Definition get_available_models_try : M (list pyval) :=
  (response <- call_ollama_list ;;
   models <- lift (py_iter (dict_get_default response "models" (PList []))) ;;
   mapM (fun model => lift (py_getitem model "model")) models)%py.

Definition get_available_models : M (list pyval) :=
  try_except
    get_available_models_try
    (fun e =>
       (print ("Error connecting to Ollama: " ++ exn_str e) ;;
        ret [PStr sentinel])%py).

Definition get_model_config (model_name : string)
  : M (option pydict * pyval) :=
  try_except
    (config_dict <- call_ollama_show model_name ;;
     let system_prompt := dict_get_default config_dict "system" PNone in
     ret (Some config_dict, system_prompt))%py
    (fun e =>
       (print ("Error getting config for " ++ model_name ++ ": "
               ++ exn_str e) ;;
        ret (None, PNone))%py).

Definition format_model_config (config_dict : pydict) : result string :=
  Json.dumps float_repr datetime_converter (PDict config_dict).

(** The cells as [server] creates them. *)
Definition server_init : world :=
  World "No model submitted yet."
        "Model config will be shown here after submission."
        (PStr "No system prompt configured")
        [].

(** The effect [_] of [server], run once per click on "Submit Model";
    [selected_model] is what [input.selected_model()] returns. *)
Definition submit_model (selected_model : string) : M unit :=
  if str_in "Error" selected_model then
    (notification_show "Ollama is not running or is not accessible" "error" ;;
     set_model_to_display "Error: Could not connect to Ollama." ;;
     set_model_config "Error: Could not connect to Ollama." ;;
     set_system_prompt (PStr "Error: Could not connect to Ollama.") ;;
     ret tt)%py
  else
    (set_model_to_display ("You submitted model: " ++ selected_model) ;;
     '(config_dict, extracted_system_prompt)
        <- get_model_config selected_model ;;
     match config_dict with
     | None =>
         set_model_config ("Error getting config for " ++ selected_model) ;;
         set_system_prompt
           (PStr ("Error getting config for " ++ selected_model)) ;;
         notification_show ("Error getting config for " ++ selected_model)
                           "error" ;;
         ret tt
     | Some config_dict =>
         text <- lift (format_model_config config_dict) ;;
         set_model_config text ;;
         if truthy extracted_system_prompt
         then set_system_prompt extracted_system_prompt
         else set_system_prompt (PStr "No system prompt configured")
     end)%py.

(** The three outputs render the cells. *)
Definition submitted_model_output (w : world) : string := model_to_display w.
Definition system_prompt_output (w : world) : pyval := system_prompt w.
Definition model_config_output (w : world) : string := model_config w.

End Main.

(** ** Vocabulary of the properties *)

(** [needle] occurs in [hay]. *)
Definition substring_of (needle hay : string) : Prop :=
  exists pre post, hay = pre ++ needle ++ post.

(** Field-wise equality of two timestamps. *)
Definition datetime_eqb (a b : datetime) : bool :=
  N.eqb (year a) (year b) && N.eqb (month a) (month b)
  && N.eqb (day a) (day b) && N.eqb (hour a) (hour b)
  && N.eqb (minute a) (minute b) && N.eqb (second a) (second b)
  && N.eqb (microsecond a) (microsecond b)
  && match utcoffset a, utcoffset b with
     | Some x, Some y => Z.eqb x y
     | None, None => true
     | _, _ => false
     end.

(** The timestamp [t] is a value somewhere inside [o]. *)
Fixpoint has_timestamp (t : datetime) (o : pyval) : bool :=
  match o with
  | PDatetime t' => datetime_eqb t t'
  | PList l => existsb (has_timestamp t) l
  | PDict d => existsb (fun kv => has_timestamp t (snd kv)) d
  | _ => false
  end.

(** No value inside [o] is an object that [json.dumps] with the
    [datetime_converter] hook cannot encode. *)
Fixpoint serializable (o : pyval) : bool :=
  match o with
  | PObj _ => false
  | PList l => forallb serializable l
  | PDict d => forallb (fun kv => serializable (snd kv)) d
  | _ => true
  end.

(** [o] with every timestamp replaced by the [str] of its ISO-8601 form. *)
Fixpoint iso_subst (o : pyval) : pyval :=
  match o with
  | PDatetime t => PStr (Iso.isoformat t)
  | PList l => PList (map iso_subst l)
  | PDict d => PDict (map (fun kv => (fst kv, iso_subst (snd kv))) d)
  | _ => o
  end.

Definition iso_subst_dict (d : pydict) : pydict :=
  map (fun kv => (fst kv, iso_subst (snd kv))) d.

(** The messages of the notifications among some effects, and the models
    whose configuration was requested from the daemon. *)
Definition notifications (es : list effect) : list string :=
  flat_map (fun e => match e with
                     | NotificationShow msg _ => [msg]
                     | _ => []
                     end) es.

Definition fetches (es : list effect) : list string :=
  flat_map (fun e => match e with
                     | OllamaShow model => [model]
                     | _ => []
                     end) es.

(** The Session State: the values of the three cells. *)
Definition cells (w : world) : string * string * pyval :=
  (model_to_display w, model_config w, system_prompt w).

(** Structural induction on Python values, through lists and dicts. *)
Section PyvalInd.

Variable P : pyval -> Prop.
Hypothesis HNone : P PNone.
Hypothesis HBool : forall b, P (PBool b).
Hypothesis HInt : forall z, P (PInt z).
Hypothesis HFloat : forall x, P (PFloat x).
Hypothesis HStr : forall s, P (PStr s).
Hypothesis HList : forall l, Forall P l -> P (PList l).
Hypothesis HDict : forall d, Forall (fun kv => P (snd kv)) d -> P (PDict d).
Hypothesis HDatetime : forall t, P (PDatetime t).
Hypothesis HObj : forall cls, P (PObj cls).

Fixpoint pyval_ind (o : pyval) : P o :=
  match o with
  | PNone => HNone
  | PBool b => HBool b
  | PInt z => HInt z
  | PFloat x => HFloat x
  | PStr s => HStr s
  | PList l =>
      HList l ((fix all (l : list pyval) : Forall P l :=
                  match l with
                  | [] => Forall_nil _
                  | x :: l' => Forall_cons x (pyval_ind x) (all l')
                  end) l)
  | PDict d =>
      HDict d ((fix all (d : pydict) : Forall (fun kv => P (snd kv)) d :=
                  match d with
                  | [] => Forall_nil _
                  | kv :: d' => Forall_cons kv (pyval_ind (snd kv)) (all d')
                  end) d)
  | PDatetime t => HDatetime t
  | PObj cls => HObj cls
  end.

End PyvalInd.

(** The states in which a submission can leave the three cells. *)
Section Outcomes.

Variable float_repr : spec_float -> string.
Variable ollama_show : string -> result pydict.

Definition connectivity_error : string :=
  "Error: Could not connect to Ollama.".

Definition confirmation (selected_model : string) : string :=
  "You submitted model: " ++ selected_model.

Definition config_error (selected_model : string) : string :=
  "Error getting config for " ++ selected_model.

Definition no_system_prompt : string := "No system prompt configured".

(** All three cells hold the connectivity-error message. *)
Definition connectivity_error_state (w : world) : Prop :=
  cells w = (connectivity_error, connectivity_error, PStr connectivity_error).

(** The label confirms the model; the other two cells hold its error. *)
Definition fetch_error_state (selected_model : string) (w : world) : Prop :=
  cells w = (confirmation selected_model,
             config_error selected_model,
             PStr (config_error selected_model)).

(** The label confirms the model, the configuration is the formatted
    record, the system prompt is the record's or the placeholder. *)
Definition success_state (selected_model : string) (w : world) : Prop :=
  exists config_dict text,
    ollama_show selected_model = Ok config_dict
    /\ format_model_config float_repr config_dict = Ok text
    /\ cells w = (confirmation selected_model, text,
                  let extracted := dict_get_default config_dict "system" PNone in
                  if truthy extracted then extracted
                  else PStr no_system_prompt).

(** All three cells hold one and the same error message. *)
Definition matching_error_state (w : world) : Prop :=
  prefix "Error" (model_to_display w) = true
  /\ model_config w = model_to_display w
  /\ system_prompt w = PStr (model_to_display w).

(** "Either all three updated consistently, or all three set to a
    matching error indication." *)
Definition no_partial_update (selected_model : string) (w : world) : Prop :=
  success_state selected_model w \/ matching_error_state w.

(** The system prompt a record calls for when every [system] value that
    is present counts. *)
Definition present_system_prompt (config_dict : pydict) : pyval :=
  match dict_get config_dict "system" with
  | Some v => v
  | None => PStr no_system_prompt
  end.

(** The daemon has a record for the model and the record can be
    formatted. *)
Definition valid_model (selected_model : string) : Prop :=
  exists config_dict,
    ollama_show selected_model = Ok config_dict
    /\ serializable (PDict config_dict) = true.

End Outcomes.

(** ** Vocabulary of the further properties *)

(** The first [Some] that [f] gives along a list. *)
Definition first_some {A B} (f : A -> option B) : list A -> option B :=
  fix first (l : list A) : option B :=
    match l with
    | [] => None
    | x :: l' => match f x with
                 | Some b => Some b
                 | None => first l'
                 end
    end.

(** The class of the first object, in the order the encoder visits the
    values, that [json.dumps] with the [datetime_converter] hook cannot
    encode. *)
Fixpoint first_unserializable (o : pyval) : option string :=
  match o with
  | PObj cls => Some cls
  | PList l => first_some first_unserializable l
  | PDict d => first_some (fun kv => first_unserializable (snd kv)) d
  | _ => None
  end.

(** What [datetime_converter] raises for an object of class [cls]. *)
Definition unserializable_error (cls : string) : exn :=
  TypeError ("Object of type " ++ cls ++ " is not JSON serializable").

(** A printable ASCII character or a line feed. *)
Definition printable (c : ascii) : bool :=
  let n := N_of_ascii c in
  ((N.leb 32 n && N.leb n 126) || N.eqb n 10)%bool.

Fixpoint all_chars (p : ascii -> bool) (s : string) : bool :=
  match s with
  | EmptyString => true
  | String c s' => (p c && all_chars p s')%bool
  end.

(** ** Sample daemons and records *)

Module Sample.

(** Stands in for [float.__repr__]; no sample record holds a float. *)
Definition float_repr (x : spec_float) : string := "0.0".

Definition modified_at : datetime :=
  Datetime 2024 5 17 9 30 0 250000 (Some (-25200000000)%Z).

Definition llama3 : pydict :=
  [("modified_at", PDatetime modified_at);
   ("system", PStr "You are helpful.");
   ("details", PDict [("family", PStr "llama"); ("families", PList [PStr "llama"])])].

Definition bare : pydict := [("template", PStr "{{ .Prompt }}")].

Definition quiet : pydict := [("system", PStr "")].

Definition broken : pydict :=
  [("system", PStr "You are helpful."); ("extra", PObj "bytes")].

(** A daemon with four models, one of them named with the word Error. *)
Definition ollama_show (model_name : string) : result pydict :=
  if String.eqb model_name "llama3:latest" then Ok llama3
  else if String.eqb model_name "bare:1b" then Ok bare
  else if String.eqb model_name "quiet:1b" then Ok quiet
  else if String.eqb model_name "broken:1b" then Ok broken
  else if String.eqb model_name "ErrorBert:latest" then Ok bare
  else Raise (Exception "ResponseError"
                        ("model '" ++ model_name ++ "' not found")).

Definition unreachable : result pydict :=
  Raise (Exception "ConnectionError"
                   "Failed to connect to Ollama.").

(** What [ollama.list()] answers: two installed models, the same answer
    with one descriptor that has no [model] entry, and an answer without
    a [models] entry. *)
Definition descriptors : list pydict :=
  [[("name", PStr "llama3:latest"); ("model", PStr "llama3:latest");
    ("size", PInt 4661224676)];
   [("name", PStr "bare:1b"); ("model", PStr "bare:1b")]].

Definition tags : pydict := [("models", PList (map PDict descriptors))].

Definition tags_partial : pydict :=
  [("models", PList [PDict [("model", PStr "llama3:latest")];
                     PDict [("name", PStr "bare:1b")]])].

Definition tags_bare : pydict := [("status", PStr "ok")].

End Sample.


(** ** Strings *)

Lemma append_assoc (a b c : string) : (a ++ b) ++ c = a ++ b ++ c.
Proof. induction a as [|x a IH]; simpl; [reflexivity | now rewrite IH]. Qed.

Lemma append_nil_r (a : string) : a ++ "" = a.
Proof. induction a as [|x a IH]; simpl; [reflexivity | now rewrite IH]. Qed.

Lemma prefix_append (needle hay : string) :
  prefix needle hay = true <-> exists post, hay = needle ++ post.
Proof.
  revert hay; induction needle as [|c needle IH]; intros hay; simpl.
  - split; [intros _; now exists hay | now destruct hay].
  - destruct hay as [|d hay].
    + split; [discriminate | intros [post H]; discriminate].
    + simpl. destruct (ascii_dec c d) as [->|Hne].
      * rewrite IH. split; intros [post H]; exists post.
        -- now rewrite H.
        -- now inversion H.
      * split; [discriminate | intros [post H]; inversion H; congruence].
Qed.

Lemma str_in_unfold (needle hay : string) :
  str_in needle hay =
  if prefix needle hay then true
  else match hay with
       | EmptyString => false
       | String _ hay' => str_in needle hay'
       end.
Proof. destruct hay; reflexivity. Qed.

(** [in] finds exactly the substrings. *)
Lemma str_in_spec (needle hay : string) :
  str_in needle hay = true <-> substring_of needle hay.
Proof.
  split.
  - induction hay as [|c hay IH]; rewrite str_in_unfold;
      destruct (prefix needle _) eqn:Hp.
    + intros _. apply prefix_append in Hp as [post ->]. now exists "", post.
    + discriminate.
    + intros _. apply prefix_append in Hp as [post ->]. now exists "", post.
    + intros H. destruct (IH H) as (pre & post & ->).
      now exists (String c pre), post.
  - intros (pre & post & ->). induction pre as [|c pre IH].
    + rewrite str_in_unfold.
      replace (prefix needle ("" ++ needle ++ post)) with true; [reflexivity|].
      symmetry. apply prefix_append. now exists post.
    + rewrite str_in_unfold. simpl. rewrite IH.
      now destruct (match needle with "" => true | String _ _ => _ end).
Qed.

Lemma substring_of_refl (s : string) : substring_of s s.
Proof. exists "", "". simpl. now rewrite append_nil_r. Qed.

Lemma substring_of_context (needle s pre post : string) :
  substring_of needle s -> substring_of needle (pre ++ s ++ post).
Proof.
  intros (a & b & ->). exists (pre ++ a), (b ++ post).
  now rewrite !append_assoc.
Qed.

(** ** Escaping leaves ISO-8601 text alone *)

Lemma escape_append (a b : string) :
  Json.escape (a ++ b) = Json.escape a ++ Json.escape b.
Proof.
  induction a as [|c a IH]; simpl; [reflexivity|].
  now rewrite IH, append_assoc.
Qed.

Ltac escape_parts :=
  repeat (rewrite escape_append; f_equal); try reflexivity.

Lemma escape_zeros (n : nat) : Json.escape (str_mul "0" n) = str_mul "0" n.
Proof. induction n as [|n IH]; simpl; [reflexivity | now rewrite IH]. Qed.

Lemma escape_uint (d : Decimal.uint) :
  Json.escape (NilEmpty.string_of_uint d) = NilEmpty.string_of_uint d.
Proof. induction d; simpl; try rewrite IHd; reflexivity. Qed.

Lemma escape_zero_pad (w : nat) (n : N) :
  Json.escape (zero_pad w n) = zero_pad w n.
Proof.
  unfold zero_pad. rewrite escape_append, escape_zeros. f_equal.
  unfold NilZero.string_of_uint.
  destruct (N.to_uint n); try apply escape_uint; reflexivity.
Qed.

Lemma escape_format_time (hh mm ss us : N) :
  Json.escape (Iso.format_time hh mm ss us) = Iso.format_time hh mm ss us.
Proof.
  unfold Iso.format_time.
  destruct (N.eqb us 0); escape_parts; apply escape_zero_pad.
Qed.

Lemma escape_format_offset (off : option Z) :
  Json.escape (Iso.format_offset off) = Iso.format_offset off.
Proof.
  destruct off as [off|]; [|reflexivity]. unfold Iso.format_offset.
  cbv zeta.
  repeat match goal with
         | |- context [if ?b then _ else _] => destruct b
         end; escape_parts; apply escape_zero_pad.
Qed.

Lemma escape_isoformat (t : datetime) :
  Json.escape (Iso.isoformat t) = Iso.isoformat t.
Proof.
  unfold Iso.isoformat. escape_parts;
    first [apply escape_zero_pad | apply escape_format_time
          | apply escape_format_offset].
Qed.

Lemma encoder_isoformat (t : datetime) :
  Json.encoder (Iso.isoformat t) = chr dquote ++ Iso.isoformat t ++ chr dquote.
Proof. unfold Json.encoder. now rewrite escape_isoformat. Qed.


(** ** The encoder *)

Lemma datetime_eqb_eq (a b : datetime) : datetime_eqb a b = true -> a = b.
Proof.
  destruct a as [y1 m1 d1 h1 i1 s1 u1 o1], b as [y2 m2 d2 h2 i2 s2 u2 o2].
  unfold datetime_eqb; simpl. rewrite !andb_true_iff, !N.eqb_eq.
  intros [[[[[[[-> ->] ->] ->] ->] ->] ->] Ho]. f_equal.
  destruct o1, o2; try discriminate; [|reflexivity].
  apply Z.eqb_eq in Ho. now subst.
Qed.

Section EncoderFacts.

Variable float_repr : spec_float -> string.

Local Abbreviation enc := (Json.iterencode float_repr datetime_converter).

Lemma iterencode_list_eq (l : list pyval) (level : nat) :
  enc (PList l) level = Json.iterencode_list enc l level.
Proof. reflexivity. Qed.

Lemma iterencode_dict_eq (d : pydict) (level : nat) :
  enc (PDict d) level = Json.iterencode_dict enc d level.
Proof. reflexivity. Qed.

Lemma list_items_ok (l : list pyval) :
  Forall (fun o => serializable o = true ->
                   forall level, exists s, enc o level = Ok s) l ->
  forallb serializable l = true ->
  forall first level,
    exists s, Json.iterencode_list_items enc first l level = Ok s.
Proof.
  induction 1 as [|o l Ho _ IH]; simpl; intros Hs first level.
  - now exists "".
  - apply andb_true_iff in Hs as [Hs1 Hs2].
    destruct (Ho Hs1 level) as [c ->].
    destruct (IH Hs2 false level) as [r ->]. simpl. eauto.
Qed.

Lemma dict_items_ok (d : pydict) :
  Forall (fun kv => serializable (snd kv) = true ->
                    forall level, exists s, enc (snd kv) level = Ok s) d ->
  forallb (fun kv => serializable (snd kv)) d = true ->
  forall first level,
    exists s, Json.iterencode_dict_items enc first d level = Ok s.
Proof.
  induction 1 as [|[k o] d Ho _ IH]; simpl; intros Hs first level.
  - now exists "".
  - apply andb_true_iff in Hs as [Hs1 Hs2]. simpl in Ho, Hs1.
    destruct (Ho Hs1 level) as [c ->].
    destruct (IH Hs2 false level) as [r ->]. simpl. eauto.
Qed.

(** A record without foreign objects is encoded. *)
Lemma iterencode_ok (o : pyval) :
  serializable o = true -> forall level, exists s, enc o level = Ok s.
Proof.
  induction o using pyval_ind; intros Hs level;
    try (simpl; eauto; fail).
  - destruct b; simpl; eauto.
  - rewrite iterencode_list_eq. destruct l as [|o l]; [simpl; eauto|].
    destruct (list_items_ok _ H Hs true (S level)) as [body Hb].
    unfold Json.iterencode_list. rewrite Hb. simpl. eauto.
  - rewrite iterencode_dict_eq. destruct d as [|kv d]; [simpl; eauto|].
    destruct (dict_items_ok _ H Hs true (S level)) as [body Hb].
    unfold Json.iterencode_dict. rewrite Hb. simpl. eauto.
  - discriminate.
Qed.

Lemma list_items_serializable (l : list pyval) :
  Forall (fun o => forall level s, enc o level = Ok s ->
                                   serializable o = true) l ->
  forall first level s,
    Json.iterencode_list_items enc first l level = Ok s ->
    forallb serializable l = true.
Proof.
  induction 1 as [|o l Ho _ IH]; simpl; intros first level s Hs.
  - reflexivity.
  - destruct (enc o level) as [c|e] eqn:Hc; [|discriminate]. simpl in Hs.
    destruct (Json.iterencode_list_items enc false l level) as [r|e] eqn:Hr;
      [|discriminate].
    rewrite (Ho _ _ Hc), (IH _ _ _ Hr). reflexivity.
Qed.

Lemma dict_items_serializable (d : pydict) :
  Forall (fun kv => forall level s, enc (snd kv) level = Ok s ->
                                    serializable (snd kv) = true) d ->
  forall first level s,
    Json.iterencode_dict_items enc first d level = Ok s ->
    forallb (fun kv => serializable (snd kv)) d = true.
Proof.
  induction 1 as [|[k o] d Ho _ IH]; simpl; intros first level s Hs.
  - reflexivity.
  - simpl in Ho.
    destruct (enc o level) as [c|e] eqn:Hc; [|discriminate]. simpl in Hs.
    destruct (Json.iterencode_dict_items enc false d level) as [r|e] eqn:Hr;
      [|discriminate].
    rewrite (Ho _ _ Hc), (IH _ _ _ Hr). reflexivity.
Qed.

(** Only a record without foreign objects is encoded. *)
Lemma iterencode_serializable (o : pyval) :
  forall level out, enc o level = Ok out -> serializable o = true.
Proof.
  induction o using pyval_ind; intros level out Hs; try reflexivity.
  - rewrite iterencode_list_eq in Hs. destruct l as [|o l]; [reflexivity|].
    unfold Json.iterencode_list in Hs.
    destruct (Json.iterencode_list_items enc true (o :: l) (S level))
      as [body|e] eqn:Hb; [|discriminate].
    apply (list_items_serializable _ H _ _ _ Hb).
  - rewrite iterencode_dict_eq in Hs. destruct d as [|kv d]; [reflexivity|].
    unfold Json.iterencode_dict in Hs.
    destruct (Json.iterencode_dict_items enc true (kv :: d) (S level))
      as [body|e] eqn:Hb; [|discriminate].
    apply (dict_items_serializable _ H _ _ _ Hb).
  - discriminate.
Qed.

End EncoderFacts.


Section TimestampFacts.

Variable float_repr : spec_float -> string.
Variable t : datetime.

Local Abbreviation enc := (Json.iterencode float_repr datetime_converter).
Local Abbreviation iso := (Json.encoder (Iso.isoformat t)).

Ltac join_strings :=
  unfold Json.encoder, Json.key_separator;
  repeat (progress (try rewrite !append_assoc; cbn [append chr]));
  reflexivity.

Lemma list_items_timestamp (l : list pyval) :
  Forall (fun o => has_timestamp t o = true ->
                   forall level out, enc o level = Ok out ->
                                     substring_of iso out) l ->
  existsb (has_timestamp t) l = true ->
  forall first level out,
    Json.iterencode_list_items enc first l level = Ok out ->
    substring_of iso out.
Proof.
  induction 1 as [|o l Ho _ IH]; intros Ht first level out Hout.
  - discriminate.
  - cbn [Json.iterencode_list_items existsb] in Hout, Ht.
    destruct (enc o level) as [c|e] eqn:Hc; [|discriminate].
    destruct (Json.iterencode_list_items enc false l level) as [r|e] eqn:Hr;
      [|discriminate].
    cbn [rbind] in Hout. injection Hout as <-.
    match goal with
    | |- substring_of _ (?x ++ _) => generalize x; intros sep
    end.
    apply orb_true_iff in Ht as [Ht|Ht].
    + destruct (Ho Ht _ _ Hc) as (p & q & ->).
      exists (sep ++ p), (q ++ r). join_strings.
    + destruct (IH Ht _ _ _ Hr) as (p & q & ->).
      exists (sep ++ c ++ p), q. join_strings.
Qed.

Lemma dict_items_timestamp (d : pydict) :
  Forall (fun kv => has_timestamp t (snd kv) = true ->
                    forall level out, enc (snd kv) level = Ok out ->
                                      substring_of iso out) d ->
  existsb (fun kv => has_timestamp t (snd kv)) d = true ->
  forall first level out,
    Json.iterencode_dict_items enc first d level = Ok out ->
    substring_of iso out.
Proof.
  induction 1 as [|[k o] d Ho _ IH]; intros Ht first level out Hout.
  - discriminate.
  - cbn [Json.iterencode_dict_items existsb snd] in Hout, Ht, Ho.
    destruct (enc o level) as [c|e] eqn:Hc; [|discriminate].
    destruct (Json.iterencode_dict_items enc false d level) as [r|e] eqn:Hr;
      [|discriminate].
    cbn [rbind] in Hout. injection Hout as <-.
    match goal with
    | |- substring_of _ (?x ++ _) => generalize x; intros sep
    end.
    apply orb_true_iff in Ht as [Ht|Ht].
    + destruct (Ho Ht _ _ Hc) as (p & q & ->).
      exists (sep ++ Json.encoder k ++ Json.key_separator ++ p), (q ++ r).
      join_strings.
    + destruct (IH Ht _ _ _ Hr) as (p & q & ->).
      exists (sep ++ Json.encoder k ++ Json.key_separator ++ c ++ p), q.
      join_strings.
Qed.

(** The encoding of a value shows each of its timestamps as the JSON
    string of its ISO-8601 form. *)
Lemma iterencode_timestamp (o : pyval) :
  has_timestamp t o = true ->
  forall level out, enc o level = Ok out -> substring_of iso out.
Proof.
  induction o using pyval_ind; intros Ht level out Hout;
    try discriminate.
  - rewrite iterencode_list_eq in Hout. destruct l as [|o l]; [discriminate|].
    unfold Json.iterencode_list in Hout.
    destruct (Json.iterencode_list_items enc true (o :: l) (S level))
      as [body|e] eqn:Hb; [|discriminate].
    cbn [rbind] in Hout. injection Hout as <-.
    apply (substring_of_context _ _ "["), (list_items_timestamp _ H Ht _ _ _ Hb).
  - rewrite iterencode_dict_eq in Hout. destruct d as [|kv d]; [discriminate|].
    unfold Json.iterencode_dict in Hout.
    destruct (Json.iterencode_dict_items enc true (kv :: d) (S level))
      as [body|e] eqn:Hb; [|discriminate].
    cbn [rbind] in Hout. injection Hout as <-.
    apply (substring_of_context _ _ "{"), (dict_items_timestamp _ H Ht _ _ _ Hb).
  - simpl in Ht. apply datetime_eqb_eq in Ht as <-.
    simpl in Hout. injection Hout as <-. apply substring_of_refl.
Qed.

Lemma list_items_iso_subst (l : list pyval) :
  Forall (fun o => forall level, enc (iso_subst o) level = enc o level) l ->
  forall first level,
    Json.iterencode_list_items enc first (map iso_subst l) level
    = Json.iterencode_list_items enc first l level.
Proof.
  induction 1 as [|o l Ho _ IH]; simpl; intros first level.
  - reflexivity.
  - now rewrite Ho, IH.
Qed.

Lemma dict_items_iso_subst (d : pydict) :
  Forall (fun kv => forall level,
              enc (iso_subst (snd kv)) level = enc (snd kv) level) d ->
  forall first level,
    Json.iterencode_dict_items enc first (iso_subst_dict d) level
    = Json.iterencode_dict_items enc first d level.
Proof.
  induction 1 as [|[k o] d Ho _ IH]; simpl; intros first level.
  - reflexivity.
  - simpl in Ho. now rewrite Ho, IH.
Qed.

(** The encoder cannot tell a timestamp from the [str] of its
    ISO-8601 form. *)
Lemma iterencode_iso_subst (o : pyval) :
  forall level, enc (iso_subst o) level = enc o level.
Proof.
  induction o using pyval_ind; intros level; try reflexivity.
  - simpl iso_subst. rewrite !iterencode_list_eq.
    destruct l as [|o l]; [reflexivity|].
    unfold Json.iterencode_list.
    change (iso_subst o :: map iso_subst l) with (map iso_subst (o :: l)).
    simpl map at 1.
    change (iso_subst o :: map iso_subst l) with (map iso_subst (o :: l)).
    now rewrite list_items_iso_subst.
  - simpl iso_subst. rewrite !iterencode_dict_eq.
    fold (iso_subst_dict d).
    destruct d as [|kv d]; [reflexivity|].
    unfold Json.iterencode_dict.
    change (iso_subst_dict (kv :: d))
      with ((fst kv, iso_subst (snd kv)) :: iso_subst_dict d) at 1.
    cbv iota.
    now rewrite dict_items_iso_subst.
Qed.

End TimestampFacts.


(** ** The submit handler *)

Section Handler.

Variable float_repr : spec_float -> string.
Variable ollama_show : string -> result pydict.

Local Abbreviation submit := (submit_model float_repr ollama_show).
Local Abbreviation format := (format_model_config float_repr).

Ltac run_handler :=
  unfold submit_model, get_model_config, call_ollama_show, try_except,
    bind, lift, ret, print, notification_show, perform,
    set_model_to_display, set_model_config, set_system_prompt;
  cbn [model_to_display model_config system_prompt effects].

Ltac flatten_effects :=
  repeat rewrite <- app_assoc; cbn [app]; try reflexivity.

(** The sentinel branch. *)
Lemma submit_model_connectivity (selected_model : string) (w : world) :
  str_in "Error" selected_model = true ->
  submit selected_model w =
  (Ok tt,
   World connectivity_error connectivity_error (PStr connectivity_error)
         (effects w ++
          [NotificationShow "Ollama is not running or is not accessible"
                            "error";
           SetModelToDisplay connectivity_error;
           SetModelConfig connectivity_error;
           SetSystemPrompt (PStr connectivity_error)])).
Proof.
  intros Hin. run_handler. rewrite Hin.
  cbn [model_to_display model_config system_prompt effects].
  unfold connectivity_error. flatten_effects.
Qed.

(** The branch of a failed fetch. *)
Lemma submit_model_fetch_error (selected_model : string) (w : world)
      (e : exn) :
  str_in "Error" selected_model = false ->
  ollama_show selected_model = Raise e ->
  submit selected_model w =
  (Ok tt,
   World (confirmation selected_model) (config_error selected_model)
         (PStr (config_error selected_model))
         (effects w ++
          [SetModelToDisplay (confirmation selected_model);
           OllamaShow selected_model;
           PrintLine ("Error getting config for " ++ selected_model ++ ": "
                  ++ exn_str e);
           SetModelConfig (config_error selected_model);
           SetSystemPrompt (PStr (config_error selected_model));
           NotificationShow (config_error selected_model) "error"])).
Proof.
  intros Hin Hshow. run_handler. rewrite Hin, Hshow.
  cbn [model_to_display model_config system_prompt effects].
  unfold confirmation, config_error. flatten_effects.
Qed.

(** The branch of a record that cannot be formatted. *)
Lemma submit_model_format_error (selected_model : string) (w : world)
      (config_dict : pydict) (e : exn) :
  str_in "Error" selected_model = false ->
  ollama_show selected_model = Ok config_dict ->
  format config_dict = Raise e ->
  submit selected_model w =
  (Raise e,
   World (confirmation selected_model) (model_config w) (system_prompt w)
         (effects w ++
          [SetModelToDisplay (confirmation selected_model);
           OllamaShow selected_model])).
Proof.
  intros Hin Hshow Hfmt. run_handler. rewrite Hin, Hshow.
  cbn [model_to_display model_config system_prompt effects].
  rewrite Hfmt. unfold confirmation. flatten_effects.
Qed.

(** The branch of a record that is formatted. *)
Lemma submit_model_success (selected_model : string) (w : world)
      (config_dict : pydict) (text : string) :
  str_in "Error" selected_model = false ->
  ollama_show selected_model = Ok config_dict ->
  format config_dict = Ok text ->
  let extracted := dict_get_default config_dict "system" PNone in
  let shown := if truthy extracted then extracted
               else PStr no_system_prompt in
  submit selected_model w =
  (Ok tt,
   World (confirmation selected_model) text shown
         (effects w ++
          [SetModelToDisplay (confirmation selected_model);
           OllamaShow selected_model;
           SetModelConfig text;
           SetSystemPrompt shown])).
Proof.
  intros Hin Hshow Hfmt extracted shown. run_handler. rewrite Hin, Hshow.
  cbn [model_to_display model_config system_prompt effects].
  rewrite Hfmt. fold extracted. subst shown.
  destruct (truthy extracted);
    cbn [model_to_display model_config system_prompt effects];
    unfold confirmation, no_system_prompt; flatten_effects.
Qed.

End Handler.


(** ** The formatter *)

Section Formatter.

Variable float_repr : spec_float -> string.

Local Abbreviation format := (format_model_config float_repr).

Lemma format_model_config_ok (config_dict : pydict) :
  serializable (PDict config_dict) = true ->
  exists text, format config_dict = Ok text.
Proof. intros Hs. apply (iterencode_ok float_repr _ Hs 0). Qed.

Lemma format_model_config_raises (config_dict : pydict) :
  serializable (PDict config_dict) = false ->
  exists e, format config_dict = Raise e.
Proof.
  intros Hs. destruct (format config_dict) as [text|e] eqn:Hf; [|eauto].
  apply iterencode_serializable in Hf. congruence.
Qed.

(** C5. A record that holds no unserializable value is formatted, and
    equal records are formatted to the same string; formatting is a
    function of the record alone and, run as a step of a computation,
    leaves the cells and the effects as they were. *)
Theorem format_model_config_deterministic (R1 R2 : pydict) :
  serializable (PDict R1) = true ->
  R1 = R2 ->
  exists text,
    format R1 = Ok text
    /\ format R2 = Ok text
    /\ forall w, lift (format R1) w = (Ok text, w).
Proof.
  intros Hs <-. destruct (format_model_config_ok R1 Hs) as [text Hf].
  exists text. repeat split; try assumption.
  intros w. unfold lift. now rewrite Hf.
Qed.

(** C6. A record that holds a timestamp [T] is formatted whenever it
    holds no unserializable value; the text then shows [T] as the JSON
    string of [T.isoformat()], and it is the very text of the record in
    which each timestamp is replaced by the [str] of its ISO-8601 form. *)
Theorem format_model_config_timestamp_iso (R : pydict) (T : datetime) :
  has_timestamp T (PDict R) = true ->
  (serializable (PDict R) = true -> exists text, format R = Ok text)
  /\ (forall text,
         format R = Ok text ->
         substring_of (chr dquote ++ Iso.isoformat T ++ chr dquote) text
         /\ format (iso_subst_dict R) = Ok text).
Proof.
  intros HT. split; [apply format_model_config_ok|].
  intros text Hf. split.
  - rewrite <- encoder_isoformat.
    apply (iterencode_timestamp float_repr T _ HT 0 text Hf).
  - rewrite <- Hf. apply (iterencode_iso_subst float_repr (PDict R) 0).
Qed.

End Formatter.

(** ** The daemon client *)

Section Client.

Variable ollama_list : result pydict.
Variable ollama_show : string -> result pydict.

(** An unreachable daemon makes the [try] block fail at its first call. *)
Lemma get_available_models_try_unreachable (w : world) (e : exn) :
  ollama_list = Raise e ->
  get_available_models_try ollama_list w
  = (Raise e, snd (perform OllamaList w)).
Proof.
  intros Hlist. unfold get_available_models_try, call_ollama_list, bind, lift.
  cbn [perform]. now rewrite Hlist.
Qed.

(** [get_model_config] returns an absent record when [ollama.show] raises,
    and the record with its [system] value when it answers. *)
Lemma get_model_config_absent (model_name : string) (w : world) (e : exn) :
  ollama_show model_name = Raise e ->
  get_model_config ollama_show model_name w
  = (Ok (None, PNone),
     World (model_to_display w) (model_config w) (system_prompt w)
           (effects w ++
            [OllamaShow model_name;
             PrintLine ("Error getting config for " ++ model_name ++ ": "
                        ++ exn_str e)])).
Proof.
  intros Hshow.
  unfold get_model_config, call_ollama_show, try_except, bind, lift, ret,
    print, perform.
  cbn [model_to_display model_config system_prompt effects].
  rewrite Hshow. cbn [model_to_display model_config system_prompt effects].
  now rewrite <- app_assoc.
Qed.

Lemma get_model_config_present (model_name : string) (w : world)
      (config_dict : pydict) :
  ollama_show model_name = Ok config_dict ->
  get_model_config ollama_show model_name w
  = (Ok (Some config_dict, dict_get_default config_dict "system" PNone),
     World (model_to_display w) (model_config w) (system_prompt w)
           (effects w ++ [OllamaShow model_name])).
Proof.
  intros Hshow.
  unfold get_model_config, call_ollama_show, try_except, bind, lift, ret,
    perform.
  cbn [model_to_display model_config system_prompt effects].
  now rewrite Hshow.
Qed.

Lemma get_available_models_returns (w : world) :
  exists choices w', get_available_models ollama_list w = (Ok choices, w').
Proof.
  unfold get_available_models, try_except.
  destruct (get_available_models_try ollama_list w) as [[choices|e] w1].
  - eauto.
  - unfold bind, print, perform, ret. eauto.
Qed.

(** C7. When the [try] block of [get_available_models] fails, whether in
    [ollama.list()] or on its answer, the function returns the list whose
    one element is the sentinel, and the sentinel begins with Error. *)
Theorem get_available_models_failure_sentinel (w w1 : world) (e : exn) :
  get_available_models_try ollama_list w = (Raise e, w1) ->
  get_available_models ollama_list w
  = (Ok [PStr sentinel],
     snd (print ("Error connecting to Ollama: " ++ exn_str e) w1))
  /\ prefix "Error" sentinel = true.
Proof.
  intros Htry. split; [|reflexivity].
  unfold get_available_models, try_except. rewrite Htry. reflexivity.
Qed.

End Client.


(** ** Submissions *)

Section Submissions.

Variable float_repr : spec_float -> string.
Variable ollama_show : string -> result pydict.

Local Abbreviation submit := (submit_model float_repr ollama_show).
Local Abbreviation format := (format_model_config float_repr).

(** A submission that returns leaves cells that do not depend on what
    the cells held before. *)
Lemma submit_model_cells (selected_model : string) (w1 w2 : world) :
  fst (submit selected_model w1) = Ok tt ->
  cells (snd (submit selected_model w1))
  = cells (snd (submit selected_model w2)).
Proof.
  destruct (str_in "Error" selected_model) eqn:Hin.
  - intros _. now rewrite !submit_model_connectivity.
  - destruct (ollama_show selected_model) as [config_dict|e] eqn:Hshow.
    + destruct (format config_dict) as [text|e] eqn:Hfmt.
      * intros _.
        now rewrite !(submit_model_success _ _ _ _ _ _ Hin Hshow Hfmt).
      * rewrite (submit_model_format_error _ _ _ _ _ e Hin Hshow Hfmt).
        discriminate.
    + intros _. now rewrite !(submit_model_fetch_error _ _ _ _ e Hin Hshow).
Qed.

(** C1, amended. When every record the daemon returns for the selected
    model can be formatted, the submission returns and leaves the three
    cells in one of three states: all three hold the connectivity-error
    message; or the label confirms the model while configuration and
    system prompt hold that model's error message; or the label confirms
    the model, the configuration is the formatted record and the system
    prompt is the record's or the placeholder. *)
Theorem submit_model_consistent_state (selected_model : string) (w : world) :
  (forall config_dict,
      ollama_show selected_model = Ok config_dict ->
      serializable (PDict config_dict) = true) ->
  exists w',
    submit selected_model w = (Ok tt, w')
    /\ ((str_in "Error" selected_model = true
         /\ connectivity_error_state w')
        \/ (str_in "Error" selected_model = false
            /\ (exists e, ollama_show selected_model = Raise e)
            /\ fetch_error_state selected_model w')
        \/ (str_in "Error" selected_model = false
            /\ success_state float_repr ollama_show selected_model w')).
Proof.
  intros Hser. destruct (str_in "Error" selected_model) eqn:Hin.
  - eexists. split; [now apply submit_model_connectivity|].
    left. split; reflexivity.
  - destruct (ollama_show selected_model) as [config_dict|e] eqn:Hshow.
    + destruct (format_model_config_ok float_repr config_dict
                  (Hser _ eq_refl)) as [text Hfmt].
      eexists. split; [now apply (submit_model_success _ _ _ _ config_dict text)|].
      right; right. split; [reflexivity|].
      exists config_dict, text. repeat split; assumption.
    + eexists. split; [now apply (submit_model_fetch_error _ _ _ _ e)|].
      right; left. repeat split; eauto.
Qed.

(** C2. When the selected model does not take the sentinel branch and
    [ollama.show] raises, the label is set to the confirmation before
    the daemon is asked, configuration and system prompt are then set to
    the error message naming the model, and one notification is shown. *)
Theorem fetch_failure_sets_error_and_notifies
        (selected_model : string) (w : world) (e : exn) :
  str_in "Error" selected_model = false ->
  ollama_show selected_model = Raise e ->
  let error := "Error getting config for " ++ selected_model in
  let label := "You submitted model: " ++ selected_model in
  let done :=
    [SetModelToDisplay label;
     OllamaShow selected_model;
     PrintLine ("Error getting config for " ++ selected_model ++ ": "
            ++ exn_str e);
     SetModelConfig error;
     SetSystemPrompt (PStr error);
     NotificationShow error "error"] in
  submit selected_model w
  = (Ok tt, World label error (PStr error) (effects w ++ done))
  /\ notifications done = [error].
Proof.
  intros Hin Hshow error label done. split; [|reflexivity].
  apply (submit_model_fetch_error _ _ _ _ e Hin Hshow).
Qed.

(** C3. A submission with the sentinel selected asks the daemon for no
    configuration, sets all three cells to the connectivity-error
    message and shows one notification. *)
Theorem sentinel_submission_connectivity_error (w : world) :
  let message := "Error: Could not connect to Ollama." in
  let done :=
    [NotificationShow "Ollama is not running or is not accessible" "error";
     SetModelToDisplay message;
     SetModelConfig message;
     SetSystemPrompt (PStr message)] in
  submit sentinel w
  = (Ok tt, World message message (PStr message) (effects w ++ done))
  /\ fetches done = []
  /\ length (notifications done) = 1.
Proof.
  intros message done. repeat split.
  now apply submit_model_connectivity.
Qed.

(** C4, amended. When the fetch succeeds and the record is formatted, the
    system-prompt cell is set to the record's [system] value if that value
    is truthy, and to the placeholder if the key is missing or its value
    is falsy ([None], the empty string). *)
Theorem system_prompt_truthy_or_placeholder
        (selected_model : string) (w : world)
        (config_dict : pydict) (text : string) :
  str_in "Error" selected_model = false ->
  ollama_show selected_model = Ok config_dict ->
  format config_dict = Ok text ->
  let w' := snd (submit selected_model w) in
  (forall v, dict_get config_dict "system" = Some v ->
             truthy v = true -> system_prompt w' = v)
  /\ (forall v, dict_get config_dict "system" = Some v ->
                truthy v = false ->
                system_prompt w' = PStr "No system prompt configured")
  /\ (dict_get config_dict "system" = None ->
      system_prompt w' = PStr "No system prompt configured").
Proof.
  intros Hin Hshow Hfmt w'. subst w'.
  rewrite (submit_model_success _ _ _ _ _ _ Hin Hshow Hfmt).
  cbn [snd system_prompt]. unfold dict_get_default.
  repeat split.
  - intros v -> ->. reflexivity.
  - intros v -> ->. reflexivity.
  - intros ->. reflexivity.
Qed.

(** C8. After a submission of any model [a], a submission of a valid
    model [b] leaves the three cells as the submission of [b] alone
    leaves them, whatever they held at first. *)
Theorem second_submission_overwrites (a b : string) (w : world) :
  valid_model ollama_show b ->
  cells (snd (submit b (snd (submit a w)))) = cells (snd (submit b w)).
Proof.
  intros (config_dict & Hshow & Hser). apply submit_model_cells.
  destruct (str_in "Error" b) eqn:Hin.
  - now rewrite submit_model_connectivity.
  - destruct (format_model_config_ok float_repr config_dict Hser)
      as [text Hfmt].
    now rewrite (submit_model_success _ _ _ _ _ _ Hin Hshow Hfmt).
Qed.

(** C9. A selected model whose name has Error anywhere in it takes the
    sentinel branch, whatever the daemon would answer for it: no
    configuration is requested and all three cells are set to the
    connectivity-error message. *)
Theorem error_substring_takes_connectivity_path
        (selected_model before after : string) (w : world) :
  selected_model = before ++ "Error" ++ after ->
  let message := "Error: Could not connect to Ollama." in
  let done :=
    [NotificationShow "Ollama is not running or is not accessible" "error";
     SetModelToDisplay message;
     SetModelConfig message;
     SetSystemPrompt (PStr message)] in
  submit selected_model w
  = (Ok tt, World message message (PStr message) (effects w ++ done))
  /\ fetches done = [].
Proof.
  intros Hname message done. split; [|reflexivity].
  apply submit_model_connectivity, str_in_spec. now exists before, after.
Qed.

(** C10. When the fetch succeeds and formatting the record raises, the
    handler raises that exception with the label already set to the
    confirmation, configuration and system prompt as they were before,
    and neither an error message written nor a notification shown. *)
Theorem format_failure_partial_update
        (selected_model : string) (w : world)
        (config_dict : pydict) (e : exn) :
  str_in "Error" selected_model = false ->
  ollama_show selected_model = Ok config_dict ->
  format config_dict = Raise e ->
  let label := "You submitted model: " ++ selected_model in
  let done := [SetModelToDisplay label; OllamaShow selected_model] in
  submit selected_model w
  = (Raise e,
     World label (model_config w) (system_prompt w) (effects w ++ done))
  /\ notifications done = []
  /\ serializable (PDict config_dict) = false.
Proof.
  intros Hin Hshow Hfmt label done. repeat split.
  - apply (submit_model_format_error _ _ _ _ _ e Hin Hshow Hfmt).
  - destruct (serializable (PDict config_dict)) eqn:Hser; [|reflexivity].
    destruct (format_model_config_ok float_repr _ Hser) as [text Hok].
    congruence.
Qed.

End Submissions.

(** ** The claims on the sample daemon *)

(** C1 as stated fails when the fetch fails: the label then confirms the
    model, it is no error message, while the other two cells hold one. *)
Lemma fetch_failure_not_matching_error :
  ~ no_partial_update Sample.float_repr Sample.ollama_show "mistral:7b"
      (snd (submit_model Sample.float_repr Sample.ollama_show "mistral:7b"
                         server_init)).
Proof.
  intros [(config_dict & text & Hshow & _) | (Hlabel & _)].
  - vm_compute in Hshow. discriminate.
  - vm_compute in Hlabel. discriminate.
Qed.

Lemma submit_model_consistent_state_witness :
  (forall config_dict,
      Sample.ollama_show "llama3:latest" = Ok config_dict ->
      serializable (PDict config_dict) = true)
  /\ exists w',
      submit_model Sample.float_repr Sample.ollama_show "llama3:latest"
                   server_init = (Ok tt, w')
      /\ success_state Sample.float_repr Sample.ollama_show
                       "llama3:latest" w'.
Proof.
  assert (H : forall config_dict,
             Sample.ollama_show "llama3:latest" = Ok config_dict ->
             serializable (PDict config_dict) = true).
  { intros config_dict Hshow. vm_compute in Hshow.
    injection Hshow as <-. reflexivity. }
  split; [exact H|].
  destruct (submit_model_consistent_state
              Sample.float_repr Sample.ollama_show "llama3:latest"
              server_init H)
    as (w' & Hrun & [[Hin _] | [(_ & [e He] & _) | [_ Hstate]]]).
  - vm_compute in Hin. discriminate.
  - vm_compute in He. discriminate.
  - exists w'. split; assumption.
Defined.

Lemma fetch_failure_sets_error_and_notifies_witness :
  submit_model Sample.float_repr Sample.ollama_show "mistral:7b" server_init
  = (Ok tt,
     World "You submitted model: mistral:7b"
           "Error getting config for mistral:7b"
           (PStr "Error getting config for mistral:7b")
           [SetModelToDisplay "You submitted model: mistral:7b";
            OllamaShow "mistral:7b";
            PrintLine "Error getting config for mistral:7b: model 'mistral:7b' not found";
            SetModelConfig "Error getting config for mistral:7b";
            SetSystemPrompt (PStr "Error getting config for mistral:7b");
            NotificationShow "Error getting config for mistral:7b" "error"]).
Proof.
  apply (fetch_failure_sets_error_and_notifies
           Sample.float_repr Sample.ollama_show "mistral:7b" server_init
           (Exception "ResponseError" "model 'mistral:7b' not found"));
    reflexivity.
Defined.

(** C4 as stated fails on a record whose [system] value is the empty
    string: the cell receives the placeholder, not the value. *)
Lemma empty_system_prompt_not_stored :
  str_in "Error" "quiet:1b" = false
  /\ Sample.ollama_show "quiet:1b" = Ok Sample.quiet
  /\ dict_get Sample.quiet "system" = Some (PStr "")
  /\ system_prompt
       (snd (submit_model Sample.float_repr Sample.ollama_show "quiet:1b"
                          server_init))
     <> present_system_prompt Sample.quiet.
Proof.
  repeat split. vm_compute. discriminate.
Qed.

Lemma system_prompt_truthy_or_placeholder_witness :
  system_prompt
    (snd (submit_model Sample.float_repr Sample.ollama_show "llama3:latest"
                       server_init))
  = PStr "You are helpful."
  /\ system_prompt
       (snd (submit_model Sample.float_repr Sample.ollama_show "bare:1b"
                          server_init))
     = PStr "No system prompt configured".
Proof.
  split.
  - destruct (format_model_config_ok Sample.float_repr Sample.llama3 eq_refl)
      as [text Hfmt].
    apply (system_prompt_truthy_or_placeholder
             Sample.float_repr Sample.ollama_show "llama3:latest" server_init
             Sample.llama3 text eq_refl eq_refl Hfmt);
      reflexivity.
  - destruct (format_model_config_ok Sample.float_repr Sample.bare eq_refl)
      as [text Hfmt].
    apply (system_prompt_truthy_or_placeholder
             Sample.float_repr Sample.ollama_show "bare:1b" server_init
             Sample.bare text eq_refl eq_refl Hfmt);
      reflexivity.
Defined.

Lemma format_model_config_deterministic_witness :
  serializable (PDict Sample.llama3) = true
  /\ exists text,
      format_model_config Sample.float_repr Sample.llama3 = Ok text.
Proof.
  split; [reflexivity|].
  destruct (format_model_config_deterministic
              Sample.float_repr Sample.llama3 Sample.llama3 eq_refl eq_refl)
    as (text & Hf & _).
  now exists text.
Defined.

Lemma format_model_config_timestamp_iso_witness :
  has_timestamp Sample.modified_at (PDict Sample.llama3) = true
  /\ exists text,
      format_model_config Sample.float_repr Sample.llama3 = Ok text
      /\ substring_of
           (chr dquote ++ "2024-05-17T09:30:00.250000-07:00" ++ chr dquote)
           text.
Proof.
  split; [reflexivity|].
  destruct (format_model_config_timestamp_iso
              Sample.float_repr Sample.llama3 Sample.modified_at eq_refl)
    as [Hok Hshows].
  destruct (Hok eq_refl) as [text Hf].
  exists text. split; [exact Hf|]. exact (proj1 (Hshows text Hf)).
Defined.

Lemma get_available_models_failure_sentinel_witness :
  get_available_models_try Sample.unreachable server_init
  = (Raise (Exception "ConnectionError" "Failed to connect to Ollama."),
     World "No model submitted yet."
           "Model config will be shown here after submission."
           (PStr "No system prompt configured")
           [OllamaList])
  /\ fst (get_available_models Sample.unreachable server_init)
     = Ok [PStr "Error: Could not connect to Ollama. Is it running?"].
Proof.
  split; [reflexivity|].
  now rewrite (proj1 (get_available_models_failure_sentinel
                        Sample.unreachable server_init _ _ eq_refl)).
Defined.

Lemma second_submission_overwrites_witness :
  valid_model Sample.ollama_show "bare:1b"
  /\ cells (snd (submit_model Sample.float_repr Sample.ollama_show "bare:1b"
                  (snd (submit_model Sample.float_repr Sample.ollama_show
                                     "llama3:latest" server_init))))
     = cells (snd (submit_model Sample.float_repr Sample.ollama_show
                                "bare:1b" server_init)).
Proof.
  assert (H : valid_model Sample.ollama_show "bare:1b").
  { exists Sample.bare. split; reflexivity. }
  split; [exact H|].
  apply (second_submission_overwrites
           Sample.float_repr Sample.ollama_show "llama3:latest" "bare:1b"
           server_init H).
Defined.

Lemma error_substring_takes_connectivity_path_witness :
  Sample.ollama_show "ErrorBert:latest" = Ok Sample.bare
  /\ cells (snd (submit_model Sample.float_repr Sample.ollama_show
                              "ErrorBert:latest" server_init))
     = ("Error: Could not connect to Ollama.",
        "Error: Could not connect to Ollama.",
        PStr "Error: Could not connect to Ollama.").
Proof.
  split; [reflexivity|].
  now rewrite (proj1 (error_substring_takes_connectivity_path
                        Sample.float_repr Sample.ollama_show
                        "ErrorBert:latest" "" "Bert:latest" server_init
                        eq_refl)).
Defined.

Lemma format_failure_partial_update_witness :
  format_model_config Sample.float_repr Sample.broken
  = Raise (TypeError "Object of type bytes is not JSON serializable")
  /\ cells (snd (submit_model Sample.float_repr Sample.ollama_show
                              "broken:1b" server_init))
     = ("You submitted model: broken:1b",
        "Model config will be shown here after submission.",
        PStr "No system prompt configured").
Proof.
  split; [reflexivity|].
  now rewrite (proj1 (format_failure_partial_update
                        Sample.float_repr Sample.ollama_show "broken:1b"
                        server_init Sample.broken _ eq_refl eq_refl eq_refl)).
Defined.

(** ** What the formatter raises *)

Section FormatterErrors.

Variable float_repr : spec_float -> string.

Local Abbreviation enc := (Json.iterencode float_repr datetime_converter).
Local Abbreviation format := (format_model_config float_repr).

Lemma first_unserializable_none (o : pyval) :
  first_unserializable o = None -> serializable o = true.
Proof.
  induction o using pyval_ind; intros Hnone; try reflexivity.
  - cbn [first_unserializable serializable] in *.
    induction H as [|o l Ho _ IH]; [reflexivity|].
    cbn [first_some forallb] in *.
    destruct (first_unserializable o); [discriminate|].
    now rewrite Ho, IH.
  - cbn [first_unserializable serializable] in *.
    induction H as [|[k o] d Ho _ IH]; [reflexivity|].
    cbn [first_some forallb snd] in *.
    destruct (first_unserializable o); [discriminate|].
    now rewrite Ho, IH.
  - discriminate.
Qed.

Lemma list_items_first_unserializable (l : list pyval) (cls : string) :
  Forall (fun o => forall cls, first_unserializable o = Some cls ->
                   forall level, enc o level = Raise (unserializable_error cls))
         l ->
  first_some first_unserializable l = Some cls ->
  forall first level,
    Json.iterencode_list_items enc first l level
    = Raise (unserializable_error cls).
Proof.
  induction 1 as [|o l Ho _ IH]; intros Hfirst first level.
  - discriminate.
  - cbn [first_some Json.iterencode_list_items] in *.
    destruct (first_unserializable o) as [c|] eqn:Ho1.
    + injection Hfirst as ->. now rewrite (Ho _ eq_refl).
    + destruct (iterencode_ok float_repr o
                  (first_unserializable_none o Ho1) level) as [chunk ->].
      cbn [rbind]. now rewrite IH.
Qed.

Lemma dict_items_first_unserializable (d : pydict) (cls : string) :
  Forall (fun kv => forall cls, first_unserializable (snd kv) = Some cls ->
                    forall level,
                      enc (snd kv) level = Raise (unserializable_error cls))
         d ->
  first_some (fun kv => first_unserializable (snd kv)) d = Some cls ->
  forall first level,
    Json.iterencode_dict_items enc first d level
    = Raise (unserializable_error cls).
Proof.
  induction 1 as [|[k o] d Ho _ IH]; intros Hfirst first level.
  - discriminate.
  - cbn [first_some Json.iterencode_dict_items snd] in *.
    destruct (first_unserializable o) as [c|] eqn:Ho1.
    + injection Hfirst as ->. now rewrite (Ho _ eq_refl).
    + destruct (iterencode_ok float_repr o
                  (first_unserializable_none o Ho1) level) as [chunk ->].
      cbn [rbind]. now rewrite IH.
Qed.

Lemma iterencode_first_unserializable (o : pyval) :
  forall cls, first_unserializable o = Some cls ->
  forall level, enc o level = Raise (unserializable_error cls).
Proof.
  induction o using pyval_ind; intros c Hfirst level; try discriminate.
  - rewrite iterencode_list_eq. cbn [first_unserializable] in Hfirst.
    destruct l as [|o l]; [discriminate|]. unfold Json.iterencode_list.
    now rewrite (list_items_first_unserializable _ _ H Hfirst).
  - rewrite iterencode_dict_eq. cbn [first_unserializable] in Hfirst.
    destruct d as [|kv d]; [discriminate|]. unfold Json.iterencode_dict.
    now rewrite (dict_items_first_unserializable _ _ H Hfirst).
  - injection Hfirst as <-. reflexivity.
Qed.

(** X1. When a record holds an object that is neither JSON data nor a
    timestamp, formatting raises a [TypeError] that names the class of the
    first such object in the order of the record. *)
Theorem format_model_config_names_first_offender (R : pydict) (cls : string) :
  first_unserializable (PDict R) = Some cls ->
  format R
  = Raise (TypeError ("Object of type " ++ cls ++ " is not JSON serializable")).
Proof.
  intros Hfirst. apply (iterencode_first_unserializable (PDict R) cls Hfirst 0).
Qed.

End FormatterErrors.

(** ** What the formatted text holds *)








Lemma printable_spaces (n : nat) : all_chars printable (str_mul " " n) = true.
Proof. induction n as [|n IH]; [reflexivity|]. cbn. exact IH. Qed.




Section FormatterText.

Variable float_repr : spec_float -> string.

Local Abbreviation enc := (Json.iterencode float_repr datetime_converter).
Local Abbreviation format := (format_model_config float_repr).

Hypothesis float_repr_printable :
  forall x, all_chars printable (float_repr x) = true.





End FormatterText.

Ltac same_text :=
  unfold Json.encoder, Json.key_separator;
  repeat (progress (try rewrite !append_assoc; cbn [append chr]));
  reflexivity.

Section FormatterEntries.

Variable float_repr : spec_float -> string.

Local Abbreviation enc := (Json.iterencode float_repr datetime_converter).
Local Abbreviation format := (format_model_config float_repr).

(** The text of a non-empty record: the items at level 1 between braces. *)
Lemma format_model_config_items (R : pydict) (text : string) :
  R <> [] ->
  format R = Ok text ->
  exists body,
    Json.iterencode_dict_items enc true R 1 = Ok body
    /\ text = "{" ++ body ++ Json.newline_indent 0 ++ "}".
Proof.
  intros Hne Hf. unfold format_model_config, Json.dumps in Hf.
  rewrite iterencode_dict_eq in Hf. destruct R as [|kv R]; [congruence|].
  unfold Json.iterencode_dict in Hf.
  destruct (Json.iterencode_dict_items enc true (kv :: R) 1) as [body|e];
    [|discriminate].
  cbn [rbind] in Hf. injection Hf as <-. now exists body.
Qed.

(** The items of two records, one after the other. *)
Lemma dict_items_app (d1 d2 : pydict) :
  forall first level out,
    Json.iterencode_dict_items enc first (d1 ++ d2)%list level = Ok out ->
    exists out1 out2,
      Json.iterencode_dict_items enc first d1 level = Ok out1
      /\ Json.iterencode_dict_items enc
           (match d1 with [] => first | _ => false end) d2 level = Ok out2
      /\ out = out1 ++ out2.
Proof.
  induction d1 as [|[k o] d1 IH]; intros first level out Hout.
  - exists "", out. now repeat split.
  - cbn [app Json.iterencode_dict_items] in *.
    destruct (enc o level) as [c|e] eqn:Hc; [|discriminate].
    destruct (Json.iterencode_dict_items enc false (d1 ++ d2)%list level)
      as [r|e] eqn:Hr; [|discriminate].
    cbn [rbind] in *. injection Hout as <-.
    destruct (IH _ _ _ Hr) as (out1 & out2 & -> & H2 & ->).
    cbn [rbind]. exists ((if first then Json.newline_indent level
                          else Json.item_separator ++ Json.newline_indent level)
                         ++ Json.encoder k ++ Json.key_separator ++ c ++ out1),
      out2.
    repeat split.
    + now destruct d1.
    + same_text.
Qed.

(** The items of a record that starts with the entry [(k, v)]. *)
Lemma dict_items_head (k : string) (v : pyval) (d : pydict) :
  forall first level out,
    Json.iterencode_dict_items enc first ((k, v) :: d) level = Ok out ->
    exists sep chunk rest,
      enc v level = Ok chunk
      /\ Json.iterencode_dict_items enc false d level = Ok rest
      /\ out = sep ++ (Json.encoder k ++ ": " ++ chunk) ++ rest.
Proof.
  intros first level out Hout. cbn [Json.iterencode_dict_items] in Hout.
  destruct (enc v level) as [c|e] eqn:Hc; [|discriminate].
  destruct (Json.iterencode_dict_items enc false d level) as [r|e] eqn:Hr;
    [|discriminate].
  cbn [rbind] in Hout. injection Hout as <-.
  exists (if first then Json.newline_indent level
          else Json.item_separator ++ Json.newline_indent level), c, r.
  repeat split. same_text.
Qed.

Lemma dict_items_entry (k : string) (v : pyval) (d : pydict) :
  In (k, v) d ->
  forall first level out,
    Json.iterencode_dict_items enc first d level = Ok out ->
    exists chunk,
      enc v level = Ok chunk
      /\ substring_of (Json.encoder k ++ ": " ++ chunk) out.
Proof.
  intros Hin first level out Hout.
  apply in_split in Hin as (d1 & d2 & ->).
  apply dict_items_app in Hout as (out1 & out2 & _ & H2 & ->).
  apply dict_items_head in H2 as (sep & chunk & rest & Hc & _ & ->).
  exists chunk. split; [exact Hc|].
  exists (out1 ++ sep), rest. same_text.
Qed.

(** Every entry of the record is in the text, as key, colon and value. *)
Lemma format_model_config_entry (R : pydict) (k : string) (v : pyval)
      (text : string) :
  In (k, v) R ->
  format R = Ok text ->
  exists chunk,
    enc v 1 = Ok chunk
    /\ substring_of (Json.encoder k ++ ": " ++ chunk) text.
Proof.
  intros Hin Hf.
  destruct (format_model_config_items R text) as (body & Hb & ->);
    [now destruct R | exact Hf |].
  destruct (dict_items_entry k v R Hin _ _ _ Hb) as (chunk & Hc & Hsub).
  exists chunk. split; [exact Hc|]. now apply substring_of_context.
Qed.

(** X2. The text of a record holds every entry of the record: the key as
    a JSON string, a colon and a space, and the encoding of the value one
    level in; a [str] value is there as a JSON string. *)
Theorem format_model_config_shows_entries
        (R : pydict) (k : string) (v : pyval) (text : string) :
  In (k, v) R ->
  format R = Ok text ->
  (exists chunk,
      enc v 1 = Ok chunk
      /\ substring_of (Json.encoder k ++ ": " ++ chunk) text)
  /\ (forall s, v = PStr s ->
                substring_of (Json.encoder k ++ ": " ++ Json.encoder s) text).
Proof.
  intros Hin Hf.
  destruct (format_model_config_entry R k v text Hin Hf) as (chunk & Hc & Hsub).
  split; [now exists chunk|].
  intros s ->. injection Hc as <-. exact Hsub.
Qed.

(** X3. The text keeps the order of the record: of two entries, the one
    that comes first in the record comes first in the text. *)
Theorem format_model_config_keeps_order
        (R1 R2 R3 : pydict) (k1 k2 : string) (v1 v2 : pyval) (text : string) :
  format (R1 ++ (k1, v1) :: R2 ++ (k2, v2) :: R3)%list = Ok text ->
  exists chunk1 chunk2 before between after,
    enc v1 1 = Ok chunk1
    /\ enc v2 1 = Ok chunk2
    /\ text = before ++ (Json.encoder k1 ++ ": " ++ chunk1)
              ++ between ++ (Json.encoder k2 ++ ": " ++ chunk2) ++ after.
Proof.
  intros Hf.
  assert (Hne : (R1 ++ (k1, v1) :: R2 ++ (k2, v2) :: R3)%list <> [])
    by now destruct R1.
  destruct (format_model_config_items _ text Hne Hf) as (body & Hb & ->).
  apply dict_items_app in Hb as (out1 & out2 & _ & Hb & ->).
  apply dict_items_head in Hb as (sep1 & chunk1 & rest1 & Hc1 & Hb & ->).
  apply dict_items_app in Hb as (out3 & out4 & _ & Hb & ->).
  apply dict_items_head in Hb as (sep2 & chunk2 & rest2 & Hc2 & _ & ->).
  exists chunk1, chunk2, ("{" ++ out1 ++ sep1), (out3 ++ sep2),
    (rest2 ++ Json.newline_indent 0 ++ "}").
  repeat split; try assumption.
  same_text.
Qed.


Lemma format_model_config_not_empty (R : pydict) (text : string) :
  format R = Ok text -> text <> "".
Proof.
  intros Hf. destruct R as [|kv R].
  - injection Hf as <-. discriminate.
  - destruct (format_model_config_items (kv :: R) text) as (body & _ & ->);
      [discriminate | exact Hf | discriminate].
Qed.

End FormatterEntries.

(** ** Listing the models *)

Lemma mapM_lift_ok {A B} (f : A -> result B) (l : list A) (ys : list B)
      (w : world) :
  Forall2 (fun x y => f x = Ok y) l ys ->
  mapM (fun x => lift (f x)) l w = (Ok ys, w).
Proof.
  induction 1 as [|x y l ys Hx _ IH]; [reflexivity|].
  cbn [mapM]. unfold bind, lift at 1. rewrite Hx, IH. reflexivity.
Qed.

Lemma mapM_lift_raise {A B} (f : A -> result B) (l : list A) (x : A)
      (e : exn) (w : world) :
  In x l -> f x = Raise e ->
  exists e', mapM (fun x => lift (f x)) l w = (Raise e', w).
Proof.
  induction l as [|a l IH]; intros Hin Hx; [contradiction|].
  cbn [mapM]. unfold bind, lift at 1.
  destruct (f a) as [b|e'] eqn:Ha; [|now exists e'].
  destruct Hin as [->|Hin]; [congruence|].
  destruct (IH Hin Hx) as [e' ->]. now exists e'.
Qed.

Lemma mapM_lift_world {A B} (f : A -> result B) (l : list A) (w : world) :
  snd (mapM (fun x => lift (f x)) l w) = w.
Proof.
  induction l as [|a l IH]; [reflexivity|].
  cbn [mapM]. unfold bind, lift at 1.
  destruct (f a) as [b|e]; [|reflexivity].
  destruct (mapM (fun x => lift (f x)) l w) as [[bs|e] w'] eqn:Hm;
    cbn [snd] in *; now subst.
Qed.

Section Listing.

Variable ollama_list : result pydict.

Local Abbreviation list_models := (get_available_models ollama_list).

(** The [try] block once the daemon has answered. *)
Lemma get_available_models_try_answer (response : pydict) (w : world) :
  ollama_list = Ok response ->
  get_available_models_try ollama_list w
  = match py_iter (dict_get_default response "models" (PList [])) with
    | Ok models =>
        mapM (fun model => lift (py_getitem model "model")) models
             (snd (perform OllamaList w))
    | Raise e => (Raise e, snd (perform OllamaList w))
    end.
Proof.
  intros Hlist.
  unfold get_available_models_try, call_ollama_list, bind, lift.
  cbn [perform snd]. rewrite Hlist.
  now destruct (py_iter (dict_get_default response "models" (PList []))).
Qed.

(** X5. When the daemon answers with a list of descriptors under
    [models] and each descriptor has a [model] entry, the choices are those
    entries, in the order of the answer, and nothing is printed. *)
Theorem get_available_models_lists_names
        (response : pydict) (descriptors : list pydict) (names : list pyval)
        (w : world) :
  ollama_list = Ok response ->
  dict_get response "models" = Some (PList (map PDict descriptors)) ->
  Forall2 (fun d name => dict_get d "model" = Some name) descriptors names ->
  list_models w
  = (Ok names,
     World (model_to_display w) (model_config w) (system_prompt w)
           (effects w ++ [OllamaList])).
Proof.
  intros Hlist Hmodels Hnames.
  unfold get_available_models, try_except.
  rewrite (get_available_models_try_answer response w Hlist).
  unfold dict_get_default. rewrite Hmodels. cbn [py_iter].
  rewrite (mapM_lift_ok _ _ names); [reflexivity|].
  clear Hmodels.
  induction Hnames as [|d name ds ns Hd _ IH]; cbn [map]; constructor;
    [|exact IH].
  cbn [py_getitem]. now rewrite Hd.
Qed.

(** X6. When the daemon's answer has no [models] entry, the choices are
    the empty list: no sentinel, nothing printed. *)
Theorem get_available_models_without_models_key
        (response : pydict) (w : world) :
  ollama_list = Ok response ->
  dict_get response "models" = None ->
  list_models w
  = (Ok [],
     World (model_to_display w) (model_config w) (system_prompt w)
           (effects w ++ [OllamaList])).
Proof.
  intros Hlist Hmodels.
  unfold get_available_models, try_except.
  rewrite (get_available_models_try_answer response w Hlist).
  unfold dict_get_default. now rewrite Hmodels.
Qed.

(** X7. One descriptor without a [model] entry spoils the whole list: the
    choices are then the sentinel alone, whatever the other descriptors
    hold. *)
Theorem get_available_models_all_or_nothing
        (response : pydict) (descriptors : list pyval) (d : pydict)
        (w : world) :
  ollama_list = Ok response ->
  dict_get response "models" = Some (PList descriptors) ->
  In (PDict d) descriptors ->
  dict_get d "model" = None ->
  fst (list_models w) = Ok [PStr sentinel].
Proof.
  intros Hlist Hmodels Hin Hd.
  unfold get_available_models, try_except.
  rewrite (get_available_models_try_answer response w Hlist).
  unfold dict_get_default. rewrite Hmodels. cbn [py_iter].
  destruct (mapM_lift_raise (fun model => py_getitem model "model")
              descriptors (PDict d) (KeyError ("'" ++ "model" ++ "'"))
              (snd (perform OllamaList w)) Hin) as [e' ->].
  - cbn [py_getitem]. now rewrite Hd.
  - reflexivity.
Qed.

(** The [try] block does no more than ask the daemon. *)
Lemma get_available_models_try_world (w : world) :
  snd (get_available_models_try ollama_list w)
  = World (model_to_display w) (model_config w) (system_prompt w)
          (effects w ++ [OllamaList]).
Proof.
  assert (Hanswer : (exists response, ollama_list = Ok response)
                    \/ (exists e, ollama_list = Raise e))
    by (destruct ollama_list; eauto).
  destruct Hanswer as [[response Hlist] | [e Hlist]].
  - rewrite (get_available_models_try_answer response w Hlist).
    destruct (py_iter (dict_get_default response "models" (PList [])))
      as [models|e]; [|reflexivity].
    now rewrite mapM_lift_world.
  - now rewrite (get_available_models_try_unreachable ollama_list w e Hlist).
Qed.

(** X8. [get_available_models] never raises and never touches the cells:
    it asks the daemon once and either prints nothing, or prints one line
    and returns the sentinel alone. *)
Theorem get_available_models_contained (w : world) :
  exists choices printed,
    list_models w
    = (Ok choices,
       World (model_to_display w) (model_config w) (system_prompt w)
             (effects w ++ OllamaList :: printed))
    /\ (printed = []
        \/ (choices = [PStr sentinel]
            /\ exists line, printed = [PrintLine line])).
Proof.
  unfold get_available_models, try_except.
  pose proof (get_available_models_try_world w) as Hw.
  destruct (get_available_models_try ollama_list w) as [[names|e] w1];
    cbn [snd] in Hw; subst w1.
  - exists names, []. split; [reflexivity|now left].
  - exists [PStr sentinel],
      [PrintLine ("Error connecting to Ollama: " ++ exn_str e)].
    split; [|right; eauto].
    unfold bind, print, perform, ret.
    cbn [model_to_display model_config system_prompt effects].
    now rewrite <- app_assoc.
Qed.

End Listing.

(** ** Every path of the submit handler *)

Lemma dict_get_In (d : pydict) (key : string) (v : pyval) :
  dict_get d key = Some v -> In (key, v) d.
Proof.
  induction d as [|[k x] d IH]; [discriminate|]. cbn [dict_get].
  destruct (String.eqb k key) eqn:Hk.
  - intros [= ->]. apply String.eqb_eq in Hk as ->. now left.
  - intros H. right. now apply IH.
Qed.

Section Paths.

Variable float_repr : spec_float -> string.
Variable ollama_list : result pydict.
Variable ollama_show : string -> result pydict.

Local Abbreviation submit := (submit_model float_repr ollama_show).
Local Abbreviation format := (format_model_config float_repr).

(** What the formatter raises is the error of the first offender. *)
Lemma format_model_config_raise (R : pydict) (e : exn) :
  format R = Raise e ->
  exists cls,
    first_unserializable (PDict R) = Some cls /\ e = unserializable_error cls.
Proof.
  intros Hf. destruct (first_unserializable (PDict R)) as [cls|] eqn:Hfirst.
  - exists cls. split; [reflexivity|].
    pose proof (iterencode_first_unserializable float_repr _ _ Hfirst 0) as Hr.
    unfold format_model_config, Json.dumps in Hf. congruence.
  - apply first_unserializable_none in Hfirst.
    destruct (format_model_config_ok float_repr R Hfirst) as [text Hok].
    congruence.
Qed.

(** The four paths of the handler, one goal for each. *)
Ltac submit_paths selected_model w :=
  let Hin := fresh "Hin" in
  let Hshow := fresh "Hshow" in
  let Hfmt := fresh "Hfmt" in
  let config_dict := fresh "config_dict" in
  let text := fresh "text" in
  let e := fresh "e" in
  destruct (str_in "Error" selected_model) eqn:Hin;
  [ rewrite ?(submit_model_connectivity float_repr ollama_show
                selected_model w Hin)
  | destruct (ollama_show selected_model) as [config_dict|e] eqn:Hshow;
    [ destruct (format config_dict) as [text|e] eqn:Hfmt;
      [ rewrite ?(submit_model_success float_repr ollama_show
                    selected_model w config_dict text Hin Hshow Hfmt)
      | rewrite ?(submit_model_format_error float_repr ollama_show
                    selected_model w config_dict e Hin Hshow Hfmt) ]
    | rewrite ?(submit_model_fetch_error float_repr ollama_show
                  selected_model w e Hin Hshow) ] ].

(** X9. On every path a submission asks the daemon for at most one
    configuration and shows at most one notification; it shows none
    exactly when the selected model reaches the fetch and the fetch
    succeeds. *)
Theorem submit_model_notifies_on_error (selected_model : string) (w : world) :
  exists done,
    effects (snd (submit selected_model w)) = (effects w ++ done)%list
    /\ length (fetches done) <= 1
    /\ length (notifications done) <= 1
    /\ (notifications done = []
        <-> str_in "Error" selected_model = false
            /\ exists config_dict,
                 ollama_show selected_model = Ok config_dict).
Proof.
  submit_paths selected_model w; cbn [snd effects];
    eexists; (split; [reflexivity|]); cbn; repeat split;
    try lia; try discriminate; try tauto; try (intros; eauto; fail).
  - intros [_ [config_dict H]]. discriminate.
Qed.

(** X10. The handler raises nothing but the formatter's error: when it
    raises, the fetch had succeeded, and the exception is the [TypeError]
    that names the class of the first value of the record that cannot be
    encoded.  What the daemon raises never leaves the handler. *)
Theorem submit_model_raises_only_type_error
        (selected_model : string) (w w' : world) (e : exn) :
  submit selected_model w = (Raise e, w') ->
  str_in "Error" selected_model = false
  /\ exists config_dict cls,
       ollama_show selected_model = Ok config_dict
       /\ first_unserializable (PDict config_dict) = Some cls
       /\ e = TypeError ("Object of type " ++ cls
                         ++ " is not JSON serializable").
Proof.
  submit_paths selected_model w; intros Hrun; try discriminate.
  injection Hrun as <- _. split; [reflexivity|].
  destruct (format_model_config_raise _ _ Hfmt) as (cls & Hfirst & ->).
  now exists config_dict, cls.
Qed.

(** X11. The label never keeps an earlier value: after a submission, on
    every path, it is the connectivity-error message when the selected
    model has Error in its name, and the confirmation of the selected
    model otherwise. *)
Theorem submit_model_label (selected_model : string) (w : world) :
  model_to_display (snd (submit selected_model w))
  = if str_in "Error" selected_model
    then "Error: Could not connect to Ollama."
    else "You submitted model: " ++ selected_model.
Proof. submit_paths selected_model w; reflexivity. Qed.

(** X12. When listing the models failed, a submission of any choice the
    list offers asks the daemon for nothing and sets all three cells to
    the connectivity-error message. *)
Theorem failed_listing_then_submit
        (w0 w1 w : world) (choices : list pyval) (choice : string) :
  (exists e w', get_available_models_try ollama_list w0 = (Raise e, w')) ->
  get_available_models ollama_list w0 = (Ok choices, w1) ->
  In (PStr choice) choices ->
  cells (snd (submit choice w))
  = ("Error: Could not connect to Ollama.",
     "Error: Could not connect to Ollama.",
     PStr "Error: Could not connect to Ollama.")
  /\ exists done,
       effects (snd (submit choice w)) = (effects w ++ done)%list
       /\ fetches done = [].
Proof.
  intros (e & w' & Htry) Hlist Hin.
  unfold get_available_models, try_except in Hlist. rewrite Htry in Hlist.
  injection Hlist as <- _. destruct Hin as [[= <-]|[]].
  rewrite (submit_model_connectivity float_repr ollama_show sentinel w eq_refl).
  split; [reflexivity|]. eexists. split; reflexivity.
Qed.

(** X13. After a successful submission of a model whose record has a
    non-empty [str] under [system], the system-prompt cell holds that
    string and the configuration cell shows the same pair, as JSON. *)
Theorem submit_model_shows_system_prompt
        (selected_model : string) (w : world) (config_dict : pydict)
        (prompt : string) :
  str_in "Error" selected_model = false ->
  ollama_show selected_model = Ok config_dict ->
  serializable (PDict config_dict) = true ->
  dict_get config_dict "system" = Some (PStr prompt) ->
  prompt <> "" ->
  let w' := snd (submit selected_model w) in
  system_prompt w' = PStr prompt
  /\ substring_of (Json.encoder "system" ++ ": " ++ Json.encoder prompt)
                  (model_config w').
Proof.
  intros Hin Hshow Hser Hsys Hne w'. subst w'.
  destruct (format_model_config_ok float_repr _ Hser) as [text Hfmt].
  rewrite (submit_model_success _ _ _ _ _ _ Hin Hshow Hfmt).
  cbn [snd system_prompt model_config]. split.
  - unfold dict_get_default. rewrite Hsys. cbn [truthy].
    destruct (String.eqb prompt "") eqn:Hp; [|reflexivity].
    apply String.eqb_eq in Hp. contradiction.
  - destruct (format_model_config_entry float_repr config_dict "system"
                (PStr prompt) text (dict_get_In _ _ _ Hsys) Hfmt)
      as (chunk & Hchunk & Hsub).
    injection Hchunk as <-. exact Hsub.
Qed.

(** X14. A submission that returns leaves no cell blank: the label and
    the configuration are not the empty string and the system prompt is
    truthy, whatever the daemon answered. *)
Theorem submit_model_leaves_no_blank (selected_model : string) (w w' : world) :
  submit selected_model w = (Ok tt, w') ->
  model_to_display w' <> ""
  /\ model_config w' <> ""
  /\ truthy (system_prompt w') = true.
Proof.
  submit_paths selected_model w; intros Hrun; try discriminate;
    injection Hrun as <-; cbn [model_to_display model_config system_prompt].
  - repeat split; discriminate.
  - repeat split; try discriminate.
    + apply (format_model_config_not_empty float_repr _ _ Hfmt).
    + destruct (truthy (dict_get_default config_dict "system" PNone)) eqn:Ht;
        [exact Ht | reflexivity].
  - repeat split; discriminate.
Qed.

(** X15. Submitting the same model again changes no cell: when a
    submission returns, a second submission of the same model leaves the
    three cells as the first one left them. *)
Theorem submit_model_idempotent (selected_model : string) (w : world) :
  fst (submit selected_model w) = Ok tt ->
  cells (snd (submit selected_model (snd (submit selected_model w))))
  = cells (snd (submit selected_model w)).
Proof.
  intros Hrun. symmetry.
  apply (submit_model_cells float_repr ollama_show selected_model w _ Hrun).
Qed.

End Paths.

(** ** The further properties on the sample daemon *)

Lemma format_model_config_names_first_offender_witness :
  first_unserializable (PDict Sample.broken) = Some "bytes"
  /\ format_model_config Sample.float_repr Sample.broken
     = Raise (TypeError "Object of type bytes is not JSON serializable").
Proof.
  split; [reflexivity|].
  apply (format_model_config_names_first_offender
           Sample.float_repr Sample.broken "bytes").
  reflexivity.
Defined.

Lemma format_model_config_shows_entries_witness :
  In ("system", PStr "You are helpful.") Sample.llama3
  /\ forall text,
       format_model_config Sample.float_repr Sample.llama3 = Ok text ->
       substring_of (Json.encoder "system" ++ ": "
                     ++ Json.encoder "You are helpful.") text.
Proof.
  assert (Hin : In ("system", PStr "You are helpful.") Sample.llama3)
    by (right; left; reflexivity).
  split; [exact Hin|].
  intros text Hf.
  apply (proj2 (format_model_config_shows_entries
                  Sample.float_repr Sample.llama3 "system"
                  (PStr "You are helpful.") text Hin Hf)).
  reflexivity.
Defined.

Lemma format_model_config_keeps_order_witness :
  exists text before between after,
    format_model_config Sample.float_repr Sample.llama3 = Ok text
    /\ text = before ++ (Json.encoder "modified_at" ++ ": "
                         ++ Json.encoder "2024-05-17T09:30:00.250000-07:00")
              ++ between
              ++ (Json.encoder "system" ++ ": "
                  ++ Json.encoder "You are helpful.")
              ++ after.
Proof.
  destruct (format_model_config_ok Sample.float_repr Sample.llama3 eq_refl)
    as [text Hf].
  destruct (format_model_config_keeps_order
              Sample.float_repr []
              [] [("details", PDict [("family", PStr "llama");
                                     ("families", PList [PStr "llama"])])]
              "modified_at" "system"
              (PDatetime Sample.modified_at) (PStr "You are helpful.")
              text Hf)
    as (chunk1 & chunk2 & before & between & after & H1 & H2 & Htext).
  injection H1 as <-. injection H2 as <-.
  now exists text, before, between, after.
Defined.


Lemma get_available_models_lists_names_witness :
  get_available_models (Ok Sample.tags) server_init
  = (Ok [PStr "llama3:latest"; PStr "bare:1b"],
     World "No model submitted yet."
           "Model config will be shown here after submission."
           (PStr "No system prompt configured")
           [OllamaList]).
Proof.
  apply (get_available_models_lists_names
           (Ok Sample.tags) Sample.tags Sample.descriptors
           [PStr "llama3:latest"; PStr "bare:1b"] server_init);
    [reflexivity | reflexivity |].
  repeat constructor.
Defined.

Lemma get_available_models_without_models_key_witness :
  dict_get Sample.tags_bare "models" = None
  /\ fst (get_available_models (Ok Sample.tags_bare) server_init) = Ok [].
Proof.
  split; [reflexivity|].
  now rewrite (get_available_models_without_models_key
                 (Ok Sample.tags_bare) Sample.tags_bare server_init
                 eq_refl eq_refl).
Defined.

Lemma get_available_models_all_or_nothing_witness :
  fst (get_available_models (Ok Sample.tags_partial) server_init)
  = Ok [PStr "Error: Could not connect to Ollama. Is it running?"].
Proof.
  apply (get_available_models_all_or_nothing
           (Ok Sample.tags_partial) Sample.tags_partial
           [PDict [("model", PStr "llama3:latest")];
            PDict [("name", PStr "bare:1b")]]
           [("name", PStr "bare:1b")] server_init);
    [reflexivity | reflexivity | right; left; reflexivity | reflexivity].
Defined.

Lemma submit_model_raises_only_type_error_witness :
  exists w',
    submit_model Sample.float_repr Sample.ollama_show "broken:1b" server_init
    = (Raise (TypeError "Object of type bytes is not JSON serializable"), w')
    /\ first_unserializable (PDict Sample.broken) = Some "bytes".
Proof.
  eexists. split; [reflexivity|].
  destruct (submit_model_raises_only_type_error
              Sample.float_repr Sample.ollama_show "broken:1b" server_init
              _ _ eq_refl)
    as (_ & config_dict & cls & Hshow & Hfirst & _).
  injection Hshow as <-. reflexivity.
Defined.

Lemma failed_listing_then_submit_witness :
  fst (get_available_models Sample.unreachable server_init)
  = Ok [PStr sentinel]
  /\ cells (snd (submit_model Sample.float_repr Sample.ollama_show sentinel
                              server_init))
     = ("Error: Could not connect to Ollama.",
        "Error: Could not connect to Ollama.",
        PStr "Error: Could not connect to Ollama.").
Proof.
  split; [reflexivity|].
  apply (failed_listing_then_submit
           Sample.float_repr Sample.unreachable Sample.ollama_show
           server_init
           (snd (get_available_models Sample.unreachable server_init))
           server_init [PStr sentinel] sentinel).
  - eexists; eexists; reflexivity.
  - reflexivity.
  - left; reflexivity.
Defined.

Lemma submit_model_shows_system_prompt_witness :
  system_prompt
    (snd (submit_model Sample.float_repr Sample.ollama_show "llama3:latest"
                       server_init))
  = PStr "You are helpful."
  /\ substring_of
       (Json.encoder "system" ++ ": " ++ Json.encoder "You are helpful.")
       (model_config
          (snd (submit_model Sample.float_repr Sample.ollama_show
                             "llama3:latest" server_init))).
Proof.
  apply (submit_model_shows_system_prompt
           Sample.float_repr Sample.ollama_show "llama3:latest" server_init
           Sample.llama3 "You are helpful.");
    [reflexivity | reflexivity | reflexivity | reflexivity | discriminate].
Defined.

Lemma submit_model_leaves_no_blank_witness :
  exists w',
    submit_model Sample.float_repr Sample.ollama_show "quiet:1b" server_init
    = (Ok tt, w')
    /\ model_config w' <> ""
    /\ truthy (system_prompt w') = true.
Proof.
  eexists. split; [reflexivity|].
  apply (submit_model_leaves_no_blank
           Sample.float_repr Sample.ollama_show "quiet:1b" server_init _
           eq_refl).
Defined.

Lemma submit_model_idempotent_witness :
  fst (submit_model Sample.float_repr Sample.ollama_show "mistral:7b"
                    server_init) = Ok tt
  /\ cells (snd (submit_model Sample.float_repr Sample.ollama_show "mistral:7b"
                   (snd (submit_model Sample.float_repr Sample.ollama_show
                                      "mistral:7b" server_init))))
     = cells (snd (submit_model Sample.float_repr Sample.ollama_show
                                "mistral:7b" server_init)).
Proof.
  split; [reflexivity|].
  apply (submit_model_idempotent
           Sample.float_repr Sample.ollama_show "mistral:7b" server_init).
  reflexivity.
Defined.
